(** * The remote-build command of snapcraft

    A shallow embedding of [snapcraft/commands/remote.py]
    (class [RemoteBuildCommand]) and the properties of its architecture
    resolution, plan validation and build lifecycle.

    Conventions of the embedding.
    - A Python [str] is a [string]; each [ascii] stands for one code point
      below 256.
    - An insertion-ordered [dict] is an association list in iteration order;
      a well-formed dict has no repeated key.
    - A Python [set] of strings is a duplicate-free list; the source only ever
      reads a set through [sorted], which forgets the iteration order.
    - Calls into collaborators that live outside [remote.py] (the remote-build
      service of craft-application, [confirm_with_user], the emitter) are
      recorded as events of a trace. What such a call returns or raises is
      read from a [World]; every collaborator call may raise.
    - [emit.debug] and [emit.trace] only write to the log file and are left
      out of the trace. *)

From Stdlib Require Import List String Ascii ZArith Bool Arith Lia.
From Stdlib Require Import Sorting.Sorted Sorting.Permutation.
From Stdlib Require Import Decimal DecimalString.
Import ListNotations.

Local Open Scope string_scope.
Local Open Scope list_scope.

(** Python's [+] on strings. *)
Infix "+++" := String.append (right associativity, at level 60).

(** ** Python strings *)

Module Py.

(** The characters the source writes as escapes. *)
Definition newline : ascii := "010"%char.
Definition squote : ascii := "039"%char.
Definition dquote : ascii := "034"%char.
Definition backslash : ascii := "092"%char.

Definition nl : string := String newline EmptyString.

(** [sep.join(items)] *)
Definition join (sep : string) (items : list string) : string :=
  String.concat sep items.

(** [str(n)] for a non-negative int. *)
Definition str_of_nat (n : nat) : string :=
  NilEmpty.string_of_uint (Nat.to_uint n).

Definition has_char (c : ascii) (s : string) : bool :=
  existsb (Ascii.eqb c) (list_ascii_of_string s).

(** [repr] of a str picks double quotes exactly when the text holds a single
    quote and no double quote. *)
Definition repr_quote (s : string) : ascii :=
  if has_char squote s && negb (has_char dquote s) then dquote else squote.

Definition hex_digit (n : nat) : ascii :=
  nth n (list_ascii_of_string "0123456789abcdef") "0"%char.

Definition hex_escape (n : nat) : string :=
  String backslash
    (String "x"%char
       (String (hex_digit (n / 16)) (String (hex_digit (n mod 16)) EmptyString))).

(** One character of [repr]'s output, for the chosen quote [q]: the quote
    and the backslash are escaped, tab, newline and carriage return get
    their letter, and a code point that is not printable (the C0 and C1
    controls, DEL, the no-break space and the soft hyphen) is written
    in hexadecimal. *)
Definition repr_escape (q c : ascii) : string :=
  let n := nat_of_ascii c in
  if Ascii.eqb c q || Ascii.eqb c backslash then String backslash (String c EmptyString)
  else if Nat.eqb n 9 then String backslash "t"
  else if Nat.eqb n 10 then String backslash "n"
  else if Nat.eqb n 13 then String backslash "r"
  else if Nat.ltb n 32 || Nat.eqb n 127 then hex_escape n
  else if Nat.ltb n 127 then String c EmptyString
  else if Nat.leb n 160 || Nat.eqb n 173 then hex_escape n
  else String c EmptyString.

Fixpoint repr_body (q : ascii) (s : string) : string :=
  match s with
  | EmptyString => EmptyString
  | String c s' => repr_escape q c +++ repr_body q s'
  end.

(** [repr(s)], what [{s!r}] puts into an f-string. *)
Definition repr (s : string) : string :=
  let q := repr_quote s in
  String q (repr_body q s +++ String q EmptyString).

(** A character [repr] copies unchanged whatever the quote: printable ASCII
    other than the two quotes and the backslash. *)
Definition plain_char (c : ascii) : bool :=
  let n := nat_of_ascii c in
  Nat.leb 32 n && Nat.ltb n 127
  && negb (Ascii.eqb c squote) && negb (Ascii.eqb c dquote)
  && negb (Ascii.eqb c backslash).

Definition plain (s : string) : bool :=
  forallb plain_char (list_ascii_of_string s).

(** [sorted(xs)] on strings: code-point lexicographic order. *)
Fixpoint insert_sorted (x : string) (l : list string) : list string :=
  match l with
  | [] => [x]
  | y :: l' => if String.leb x y then x :: y :: l' else y :: insert_sorted x l'
  end.

Fixpoint sorted (l : list string) : list string :=
  match l with
  | [] => []
  | x :: l' => insert_sorted x (sorted l')
  end.

(** [s.add(x)] on a set. *)
Definition set_add (x : string) (s : list string) : list string :=
  if in_dec string_dec x s then s else s ++ [x].

(** Truth value of a str, and of [None] or a str. *)
Definition truthy_str (s : string) : bool :=
  match s with EmptyString => false | _ => true end.

Definition truthy_opt_str (s : option string) : bool :=
  match s with Some s => truthy_str s | None => false end.

(** Truth value of a list, and [xs or []]. *)
Definition truthy_list {A} (l : list A) : bool :=
  match l with [] => false | _ => true end.

Definition or_empty {A} (l : option (list A)) : list A :=
  match l with Some l => l | None => [] end.

(** [t in s] for strings. *)
Definition contains (t s : string) : Prop :=
  exists pre post, s = pre +++ t +++ post.

End Py.

(** ** Exit codes ([os.EX_*], the POSIX sysexits values) *)

Definition EX_OK : Z := 0.
Definition EX_TEMPFAIL : Z := 75.
Definition EX_NOPERM : Z := 77.
Definition EX_CONFIG : Z := 78.

(** ** Exceptions

    One constructor per class the source raises or names in an [except]
    clause; an exception of a subclass is filed under the class the source
    names. [KeyboardInterrupt] and [OtherBaseException] are outside
    [Exception]. *)
Inductive exn : Type :=
| RemoteBuildError (message : string) (details resolution doc_slug : option string)
                   (reportable : bool) (retcode : Z)
| LaunchpadError (message : string)
| Conflict (message : string)
| EmptyBuildPlanError
| TimeoutError (message : string)
| KeyboardInterrupt
| OtherException (class_name message : string)
| OtherBaseException (class_name message : string).

(** [isinstance(e, Exception)] *)
Definition is_Exception (e : exn) : bool :=
  match e with
  | KeyboardInterrupt | OtherBaseException _ _ => false
  | _ => true
  end.

Inductive result (A : Type) : Type :=
| Ok (a : A)
| Raise (e : exn).
Arguments Ok {A} a.
Arguments Raise {A} e.

(** ** Data model *)

(** [craft_application.models.BuildInfo], the fields the command reads. *)
Record BuildInfo : Type := {
  platform : string;
  build_on : string;
  build_for : string
}.

(** [snapcraft.models.Project], the fields the command reads. [platforms]
    lists the keys of the project's platforms dict. *)
Record Project : Type := {
  name : string;
  platforms : option (list string);
  _architectures_in_yaml : option bool
}.

(** Modelled from the spec: the enumeration
    [craft_application.launchpad.models.BuildState] is declared outside this
    repository. The spec lists the values PENDING, UPLOADING, RUNNING
    (building), SUCCESS, FAILED and CANCELLED or other stopped states. *)
Inductive BuildState : Type :=
| PENDING
| UPLOADING
| RUNNING
| SUCCESS
| FAILED
| CANCELLED.

(** Modelled from the spec: [is_running] is true only for RUNNING. *)
Definition is_running (s : BuildState) : bool :=
  match s with RUNNING => true | _ => false end.

Definition BuildState_eqb (a b : BuildState) : bool :=
  match a, b with
  | PENDING, PENDING | UPLOADING, UPLOADING | RUNNING, RUNNING
  | SUCCESS, SUCCESS | FAILED, FAILED | CANCELLED, CANCELLED => true
  | _, _ => false
  end.

(** One polling tick: [Mapping[str, BuildState]] in iteration order. *)
Definition MonitoringSnapshot : Type := list (string * BuildState).

(** A [launchpad.models.Build]; the command only counts them. *)
Definition Build : Type := string.

(** A [pathlib.Path]; the command only reads its [name]. *)
Record Path : Type := { path_name : string }.

(** [argparse.Namespace] as [_fill_parser] declares it. [--status] and
    [--build-id] are declared but never read by the functions below. *)
Record Namespace : Type := {
  project : option string;
  recover : bool;
  launchpad_accept_public_upload : bool;
  launchpad_timeout : Z;
  remote_build_build_fors : option (list string)
}.

(** What the command object holds when [_run] starts: the application name,
    the loaded project, the build plan
    ([BuildPlannerClass.unmarshal(...).get_build_plan()]) and the resolved
    project directory. *)
Record Command : Type := {
  app_name : string;
  cmd_project : Project;
  build_plan : list BuildInfo;
  project_dir : string
}.

(** Pure functions and constants imported from other packages. *)
Record Library : Type := {
  (** [craft_application.util.humanize_list(items, conjunction)] *)
  humanize_list : list string -> string -> string;
  (** [craft_application.application.filter_plan(plan, platform, build_for, host_arch)] *)
  filter_plan : list BuildInfo -> option string -> option string -> option string
                -> list BuildInfo;
  (** [craft_application.remote.utils.get_build_id(app_name, project_name, project_path)] *)
  get_build_id : string -> string -> string -> string;
  (** [snapcraft.const.SUPPORTED_ARCHS] *)
  SUPPORTED_ARCHS : list string;
  (** [str(DebianArchitecture.from_host())] *)
  from_host : string
}.

(** ** Effects *)

(** Calls that leave [remote.py], in program order. *)
Inductive event : Type :=
| emit_progress (text : string) (permanent : bool)
| emit_message (text : string)
| time_sleep (seconds : Z)
| call_confirm_with_user (prompt : string) (default : bool)
| call_set_project (project_name : string)
| call_set_timeout (seconds : Z)
| call_is_project_private
| call_start_builds (project_dir : string) (architectures : list string)
| call_resume_builds (build_id : string)
| call_monitor_builds
| call_fetch_logs
| call_fetch_artifacts
| call_cancel_builds
| call_cleanup.

(** What the collaborators do when called. [monitor_builds] is a generator:
    it yields the listed snapshots and then stops, or raises. Every other
    method is called at most once per run (see
    [collaborators_called_at_most_once]), so
    one outcome each is enough. *)
Record World : Type := {
  sudo_as_root : bool;  (** [os.getenv("SUDO_USER") and os.geteuid() == 0] *)
  confirm_with_user : string -> bool -> result bool;
  set_project : result unit;
  set_timeout : result unit;
  is_project_private : result bool;
  start_builds : result (list Build);
  resume_builds : result (list Build);
  monitor_builds : list MonitoringSnapshot * option exn;
  fetch_logs : result (list (string * option Path));
  fetch_artifacts : result (list Path);
  cancel_builds : result unit;
  cleanup : result unit
}.

(** A computation: the events it performed and how it ended. *)
Definition M (A : Type) : Type := (list event * result A)%type.

Definition ret {A} (a : A) : M A := ([], Ok a).

Definition raise {A} (e : exn) : M A := ([], Raise e).

Definition bind {A B} (m : M A) (f : A -> M B) : M B :=
  match m with
  | (t, Ok a) => let (t', r) := f a in (t ++ t', r)
  | (t, Raise e) => (t, Raise e)
  end.

(** [try: m  except ...: handler e]; a handler that does not match
    re-raises. *)
Definition try_except {A} (m : M A) (handler : exn -> M A) : M A :=
  match m with
  | (t, Raise e) => let (t', r) := handler e in (t ++ t', r)
  | (t, Ok a) => (t, Ok a)
  end.

(** A collaborator call with its outcome. *)
Definition call {A} (ev : event) (outcome : result A) : M A := ([ev], outcome).

(** A call that cannot fail. *)
Definition emit (ev : event) : M unit := ([ev], Ok tt).

Definition lift {A} (r : result A) : M A := ([], r).

Definition trace {A} (m : M A) : list event := fst m.
Definition outcome {A} (m : M A) : result A := snd m.

Notation "x <- m ;; k" := (bind m (fun x => k))
  (at level 61, m at next level, right associativity).
Notation "m ;; k" := (bind m (fun _ => k))
  (at level 61, right associativity).

(** [when c: m] *)
Definition when (c : bool) (m : M unit) : M unit := if c then m else ret tt.

Definition is_cleanup (ev : event) : bool :=
  match ev with call_cleanup => true | _ => false end.
Definition is_cancel_builds (ev : event) : bool :=
  match ev with call_cancel_builds => true | _ => false end.
Definition is_start_builds (ev : event) : bool :=
  match ev with call_start_builds _ _ => true | _ => false end.
Definition is_resume_builds (ev : event) : bool :=
  match ev with call_resume_builds _ => true | _ => false end.
Definition is_fetch_logs (ev : event) : bool :=
  match ev with call_fetch_logs => true | _ => false end.
Definition is_fetch_artifacts (ev : event) : bool :=
  match ev with call_fetch_artifacts => true | _ => false end.

(** How often a kind of call occurs in a trace. *)
Definition calls (kind : event -> bool) (t : list event) : nat :=
  List.length (filter kind t).

(** ** The command *)

Definition _CONFIRMATION_PROMPT : string :=
  "All data sent to remote builders will be publicly available. " +++
  "Are you sure you want to continue?".

Definition doc_slug_remote_build : option string :=
  Some "/explanation/remote-build.html".

(** [build_map.setdefault(build_on, []).append(build_for)] *)
Fixpoint setdefault_append (build_map : list (string * list string))
         (k v : string) : list (string * list string) :=
  match build_map with
  | [] => [(k, [v])]
  | (k', vs) :: rest =>
      if String.eqb k' k then (k', vs ++ [v]) :: rest
      else (k', vs) :: setdefault_append rest k v
  end.

(** The five sets of one tick of the monitoring loop. *)
Record Buckets : Type := {
  building : list string;
  succeeded : list string;
  uploading : list string;
  pending : list string;
  not_building : list string
}.

Definition no_buckets : Buckets :=
  {| building := []; succeeded := []; uploading := []; pending := [];
     not_building := [] |}.

(** The body of [for arch, build_state in states.items()]. *)
Definition classify_item (b : Buckets) (item : string * BuildState) : Buckets :=
  let (arch, build_state) := item in
  if is_running build_state then
    {| building := Py.set_add arch (building b); succeeded := succeeded b;
       uploading := uploading b; pending := pending b;
       not_building := not_building b |}
  else if BuildState_eqb build_state SUCCESS then
    {| building := building b; succeeded := Py.set_add arch (succeeded b);
       uploading := uploading b; pending := pending b;
       not_building := not_building b |}
  else if BuildState_eqb build_state UPLOADING then
    {| building := building b; succeeded := succeeded b;
       uploading := Py.set_add arch (uploading b); pending := pending b;
       not_building := not_building b |}
  else if BuildState_eqb build_state PENDING then
    {| building := building b; succeeded := succeeded b;
       uploading := uploading b; pending := Py.set_add arch (pending b);
       not_building := not_building b |}
  else
    {| building := building b; succeeded := succeeded b;
       uploading := uploading b; pending := pending b;
       not_building := Py.set_add arch (not_building b) |}.

Definition classify (states : MonitoringSnapshot) : Buckets :=
  fold_left classify_item states no_buckets.

(** [progress_parts] after the five conditional appends. *)
Definition progress_parts (b : Buckets) : list string :=
  let parts := [] in
  let parts :=
    if Py.truthy_list (not_building b)
    then parts ++ ["Stopped: " +++ Py.join "," (Py.sorted (not_building b))]
    else parts in
  let parts :=
    if Py.truthy_list (building b)
    then parts ++ ["Building: " +++ Py.join ", " (Py.sorted (building b))]
    else parts in
  let parts :=
    if Py.truthy_list (uploading b)
    then parts ++ ["Uploading: " +++ Py.join "," (Py.sorted (uploading b))]
    else parts in
  let parts :=
    if Py.truthy_list (succeeded b)
    then parts ++ ["Succeeded: " +++ Py.join ", " (Py.sorted (succeeded b))]
    else parts in
  let parts :=
    if Py.truthy_list (pending b)
    then parts ++ ["Pending: " +++ Py.join ", " (Py.sorted (pending b))]
    else parts in
  parts.

(** The text of the one [emit.progress] of a tick. *)
Definition progress_line (states : MonitoringSnapshot) : string :=
  Py.join "; " (progress_parts (classify states)).

(** The [for states in ...] loop over the yielded snapshots; [states] keeps
    the last one. *)
Fixpoint monitor_ticks (snapshots : list MonitoringSnapshot)
         (states : MonitoringSnapshot) : M MonitoringSnapshot :=
  match snapshots with
  | [] => ret states
  | s :: rest =>
      emit (emit_progress (progress_line s) false);;
      monitor_ticks rest s
  end.

(** The loop [for arch, build_state in states.items()] that follows the
    monitoring. *)
Fixpoint report_failed (items : MonitoringSnapshot) (return_code : Z) : M Z :=
  match items with
  | [] => ret return_code
  | (arch, build_state) :: rest =>
      if BuildState_eqb build_state FAILED then
        emit (emit_progress ("Build for architecture " +++ arch +++ " failed.") true);;
        report_failed rest 1
      else report_failed rest return_code
  end.

(** [path.name for path in logs.values() if path] *)
Definition log_names_of (logs : list (string * option Path)) : list string :=
  flat_map (fun kv => match snd kv with Some p => [path_name p] | None => [] end) logs.

(** [[info.build_for for info in plan]] *)
Definition build_fors_of (plan : list BuildInfo) : list string :=
  map build_for plan.

Section Coordinator.

Variable lib : Library.
Variable w : World.
Variable self : Command.

(** [RemoteBuildCommand._validate_single_artifact_per_build_on] *)
Definition build_map_of (plan : list BuildInfo) : list (string * list string) :=
  fold_left (fun m build_info =>
               setdefault_append m (build_on build_info) (build_for build_info))
            plan [].

Definition build_on_error (entry : string * list string) : list string :=
  let (build_on, build_fors) := entry in
  if Nat.ltb 1 (List.length build_fors) then
    [Py.nl +++ "  - Building on " +++ Py.repr build_on +++ " will create snaps for "
       +++ humanize_list lib build_fors "and" +++ "."]
  else [].

Definition build_on_errors_of (build_map : list (string * list string)) : list string :=
  flat_map build_on_error build_map.

Definition _validate_single_artifact_per_build_on : M unit :=
  let build_map := build_map_of (build_plan self) in
  let build_on_errors := build_on_errors_of build_map in
  if Py.truthy_list build_on_errors then
    raise (RemoteBuildError
             ("Remote build does not support building multiple snaps on the "
                +++ "same architecture:" +++ Py.join EmptyString build_on_errors)
             None
             (Some ("Ensure that only one snap will be created for each build-on "
                      +++ "architecture."))
             doc_slug_remote_build true EX_CONFIG)
  else ret tt.

(** The loop [for build_for in parsed_args.remote_build_build_fors or []] of
    [_validate]. *)
Fixpoint check_build_fors (build_fors : list string) : M unit :=
  match build_fors with
  | [] => ret tt
  | build_for :: rest =>
      if negb (existsb (String.eqb build_for) (SUPPORTED_ARCHS lib ++ ["all"])) then
        raise (RemoteBuildError
                 ("Unsupported build-for architecture " +++ Py.repr build_for +++ ".")
                 None
                 (Some ("Use a supported debian architecture. Supported "
                          +++ "architectures are: "
                          +++ humanize_list lib (SUPPORTED_ARCHS lib) "and"))
                 doc_slug_remote_build true EX_CONFIG)
      else check_build_fors rest
  end.

(** [RemoteBuildCommand._validate]. The condition of the second [if] is
    evaluated left to right with [and]/[or] short-circuiting. *)
Definition _validate (parsed_args : Namespace) : M unit :=
  when (sudo_as_root w)
       (emit (emit_progress
                "Running with 'sudo' may cause permission errors and is discouraged."
                true);;
        emit (time_sleep 1));;
  refused <-
    (if launchpad_accept_public_upload parsed_args then ret false
     else
       public <-
         (if negb (Py.truthy_opt_str (project parsed_args)) then ret true
          else
            private <- call call_is_project_private (is_project_private w);;
            ret (negb private));;
       if public then
         confirmed <- call (call_confirm_with_user _CONFIRMATION_PROMPT false)
                           (confirm_with_user w _CONFIRMATION_PROMPT false);;
         ret (negb confirmed)
       else ret false);;
  if refused then
    raise (RemoteBuildError
             ("Remote build needs explicit acknowledgement that data sent to build servers "
                +++ "is public.")
             (Some ("In non-interactive runs, please use the option "
                      +++ "`--launchpad-accept-public-upload`."))
             None doc_slug_remote_build false EX_NOPERM)
  else
    check_build_fors (Py.or_empty (remote_build_build_fors parsed_args));;
    _validate_single_artifact_per_build_on.

(** The loop [for build_for in build_fors] of [_get_archs]; [archs] is the
    list built so far. *)
Fixpoint filter_build_fors (build_fors : list string) (archs : list string)
  : result (list string) :=
  match build_fors with
  | [] => Ok archs
  | build_for :: rest =>
      let filtered_build_plan :=
        filter_plan lib (build_plan self) None (Some build_for) None in
      let archs := archs ++ build_fors_of filtered_build_plan in
      if negb (Py.truthy_list archs) then Raise EmptyBuildPlanError
      else filter_build_fors rest archs
  end.

(** [self.project.platforms or self.project._architectures_in_yaml] *)
Definition declares_architectures (p : Project) : bool :=
  match platforms p with
  | Some (_ :: _) => true
  | _ => match _architectures_in_yaml p with Some b => b | None => false end
  end.

(** [RemoteBuildCommand._get_archs] *)
Definition _get_archs (build_fors : option (list string)) : result (list string) :=
  if declares_architectures (cmd_project self) then
    if Py.truthy_list (Py.or_empty build_fors) then
      filter_build_fors (Py.or_empty build_fors) []
    else Ok (build_fors_of (build_plan self))
  else if Py.truthy_list (Py.or_empty build_fors) then
    Ok (Py.or_empty build_fors)
  else Ok [from_host lib].

(** The [try] block of [_monitor_and_complete]: the generator is created and
    run to its end. *)
Definition monitor_loop : M MonitoringSnapshot :=
  emit call_monitor_builds;;
  states <- monitor_ticks (fst (monitor_builds w)) [];;
  match snd (monitor_builds w) with
  | None => ret states
  | Some e => raise e
  end.

(** The command line that [except TimeoutError] offers. *)
Definition resume_command (build_id : option string) : string :=
  if Py.truthy_opt_str build_id then
    app_name self +++ " remote-build --recover --build-id="
      +++ match build_id with Some id => id | None => EmptyString end
  else app_name self +++ " remote-build --recover".

Definition timeout_message (build_id : option string) : string :=
  "Timed out waiting for build." +++ Py.nl +++ "To resume, run "
    +++ Py.repr (resume_command build_id).

(** [RemoteBuildCommand._monitor_and_complete]. The [try] yields [inl states]
    when the loop ends and [inr 75] when the handler returns. *)
Definition _monitor_and_complete (build_id : option string) (builds : list Build)
  : M Z :=
  emit (emit_progress "Monitoring build" false);;
  looped <-
    try_except
      (states <- monitor_loop;; ret (inl states))
      (fun e =>
         match e with
         | TimeoutError _ =>
             emit (emit_message (timeout_message build_id));;
             ret (inr 75%Z)
         | _ => raise e
         end);;
  match looped with
  | inr code => ret code
  | inl states =>
      return_code <- report_failed states 0%Z;;
      emit (emit_progress
              ("Fetching " +++ Py.str_of_nat (List.length builds) +++ " build logs...")
              false);;
      logs <- call call_fetch_logs (fetch_logs w);;
      return_code <-
        (if negb (Py.truthy_list logs) then
           emit (emit_progress "No log files downloaded from Launchpad." true);;
           ret 1%Z
         else ret return_code);;
      emit (emit_progress "Fetching build artifacts..." false);;
      artifacts <- call call_fetch_artifacts (fetch_artifacts w);;
      return_code <-
        (if negb (Py.truthy_list artifacts) then
           emit (emit_progress "No build artifacts downloaded from Launchpad." true);;
           ret 1%Z
         else ret return_code);;
      let log_names := Py.sorted (log_names_of logs) in
      let artifact_names := Py.sorted (map path_name artifacts) in
      emit (emit_message
              ("Build completed." +++ Py.nl
                 +++ "Log files: " +++ Py.join ", " log_names +++ Py.nl
                 +++ "Artifacts: " +++ Py.join ", " artifact_names));;
      ret return_code
  end.

(** Lines 213 to 245 of [_run]: everything before the builds are submitted or
    resumed. Returns [archs] and [build_id]. *)
Definition _run_setup (parsed_args : Namespace) : M (list string * string) :=
  when (Py.truthy_opt_str (project parsed_args))
       (call (call_set_project
                (match project parsed_args with Some p => p | None => EmptyString end))
             (set_project w));;
  emit (emit_progress
          "remote-build is experimental and is subject to change. Use with caution."
          true);;
  _validate parsed_args;;
  archs <- lift (_get_archs (remote_build_build_fors parsed_args));;
  when (negb (Z.eqb (launchpad_timeout parsed_args) 0))
       (call (call_set_timeout (launchpad_timeout parsed_args)) (set_timeout w));;
  ret (archs,
       get_build_id lib (app_name self) (name (cmd_project self)) (project_dir self)).

(** Lines 246 to 264 of [_run]: [inl builds] when the builds are running,
    [inr code] when [_run] returns from the [except Conflict] handler. *)
Definition _run_submit (parsed_args : Namespace) (archs : list string)
           (build_id : string) : M (list Build + Z) :=
  if recover parsed_args then
    emit (emit_progress ("Recovering build " +++ build_id) false);;
    builds <- call (call_resume_builds build_id) (resume_builds w);;
    ret (inl builds)
  else
    emit (emit_progress
            "Starting new build. It may take a while to upload large projects."
            false);;
    try_except
      (builds <- call (call_start_builds (project_dir self) archs) (start_builds w);;
       ret (inl builds))
      (fun e =>
         match e with
         | RemoteBuildError _ _ _ _ _ _ | LaunchpadError _ =>
             emit (emit_progress "Starting build failed." true);;
             emit (emit_progress "Cleaning up" false);;
             call call_cleanup (cleanup w);;
             raise e
         | Conflict _ =>
             emit (emit_progress "Remote repository already exists." true);;
             emit (emit_progress "Cleaning up" false);;
             call call_cleanup (cleanup w);;
             ret (inr EX_TEMPFAIL)
         | _ => raise e
         end).

(** Lines 266 to 281 of [_run]: [inl returncode] when control reaches the
    statements after the [try], [inr code] when the [KeyboardInterrupt]
    handler returns. *)
Definition _run_monitor (build_id : string) (builds : list Build) : M Z :=
  monitored <-
    try_except
      (returncode <- _monitor_and_complete (Some build_id) builds;;
       ret (inl returncode))
      (fun e =>
         match e with
         | KeyboardInterrupt =>
             cancel <- call (call_confirm_with_user "Cancel builds?" true)
                            (confirm_with_user w "Cancel builds?" true);;
             when cancel
                  (emit (emit_progress "Cancelling builds." false);;
                   call call_cancel_builds (cancel_builds w);;
                   emit (emit_progress "Cleaning up." false);;
                   call call_cleanup (cleanup w));;
             ret (inr EX_OK)
         | _ => if is_Exception e then ret (inl 1%Z) else raise e
         end);;
  match monitored with
  | inr code => ret code
  | inl returncode =>
      when (negb (Z.eqb returncode EX_TEMPFAIL))
           (emit (emit_progress "Cleaning up" false);;
            call call_cleanup (cleanup w));;
      ret returncode
  end.

(** [RemoteBuildCommand._run] *)
Definition _run (parsed_args : Namespace) : M Z :=
  setup <- _run_setup parsed_args;;
  let (archs, build_id) := setup in
  submitted <- _run_submit parsed_args archs build_id;;
  match submitted with
  | inr code => ret code
  | inl builds => _run_monitor build_id builds
  end.

End Coordinator.

Arguments timeout_message : simpl never.
Arguments resume_command : simpl never.
Arguments progress_line : simpl never.

(** ** Concrete collaborators, for running the command on examples *)

Module Example.

(** Modelled from the spec: [filter_plan] is a function of craft-application.
    "For each override entry, select only declared targets whose build-for
    matches"; an absent criterion selects everything. *)
Definition criterion (wanted : option string) (actual : string) : bool :=
  match wanted with
  | Some s => String.eqb s actual
  | None => true
  end.

Definition filter_plan_model (plan : list BuildInfo)
           (wanted_platform wanted_build_for wanted_host_arch : option string)
  : list BuildInfo :=
  filter (fun info =>
            criterion wanted_platform (platform info)
            && criterion wanted_host_arch (build_on info)
            && criterion wanted_build_for (build_for info))
         plan.

(** A stand-in for craft-application's [humanize_list]: the quoted items,
    sorted, separated by commas, with the conjunction before the last. *)
Definition humanize_list_model (items : list string) (conjunction : string)
  : string :=
  match Py.sorted (map Py.repr items) with
  | [] => EmptyString
  | [x] => x
  | quoted =>
      Py.join ", " (removelast quoted)
        +++ (if Nat.ltb 2 (List.length quoted) then "," else EmptyString)
        +++ " " +++ conjunction +++ " " +++ last quoted EmptyString
  end.

Definition lib : Library :=
  {| humanize_list := humanize_list_model;
     filter_plan := filter_plan_model;
     get_build_id := fun app project dir => "abc123";
     SUPPORTED_ARCHS := ["amd64"; "arm64"; "armhf"; "ppc64el"; "riscv64"; "s390x"];
     from_host := "amd64" |}.

Definition info (on for_ : string) : BuildInfo :=
  {| platform := for_; build_on := on; build_for := for_ |}.

(** A project with a [platforms] key and the plan it declares. *)
Definition declared (plan : list BuildInfo) : Command :=
  {| app_name := "snapcraft";
     cmd_project := {| name := "demo";
                       platforms := Some (map platform plan);
                       _architectures_in_yaml := None |};
     build_plan := plan;
     project_dir := "/home/user/demo" |}.

(** A project without [platforms] and [architectures]; its plan is the
    default one for the host. *)
Definition undeclared : Command :=
  {| app_name := "snapcraft";
     cmd_project := {| name := "demo"; platforms := None;
                       _architectures_in_yaml := None |};
     build_plan := [info "amd64" "amd64"];
     project_dir := "/home/user/demo" |}.

Definition args (recover : bool) (build_fors : option (list string)) : Namespace :=
  {| project := None; recover := recover;
     launchpad_accept_public_upload := true; launchpad_timeout := 0;
     remote_build_build_fors := build_fors |}.

(** A farm on which everything works: one build, two ticks, one log and one
    artifact. *)
Definition calm : World :=
  {| sudo_as_root := false;
     confirm_with_user := fun _ default => Ok default;
     set_project := Ok tt;
     set_timeout := Ok tt;
     is_project_private := Ok false;
     start_builds := Ok ["amd64"];
     resume_builds := Ok ["amd64"];
     monitor_builds := ([[("amd64", RUNNING)]; [("amd64", SUCCESS)]], None);
     fetch_logs := Ok [("amd64", Some {| path_name := "demo_amd64.txt" |})];
     fetch_artifacts := Ok [{| path_name := "demo_1.0_amd64.snap" |}];
     cancel_builds := Ok tt;
     cleanup := Ok tt |}.

Definition with_start_builds (r : result (list Build)) (w : World) : World :=
  {| sudo_as_root := sudo_as_root w; confirm_with_user := confirm_with_user w;
     set_project := set_project w; set_timeout := set_timeout w;
     is_project_private := is_project_private w;
     start_builds := r; resume_builds := resume_builds w;
     monitor_builds := monitor_builds w; fetch_logs := fetch_logs w;
     fetch_artifacts := fetch_artifacts w; cancel_builds := cancel_builds w;
     cleanup := cleanup w |}.

Definition with_resume_builds (r : result (list Build)) (w : World) : World :=
  {| sudo_as_root := sudo_as_root w; confirm_with_user := confirm_with_user w;
     set_project := set_project w; set_timeout := set_timeout w;
     is_project_private := is_project_private w;
     start_builds := start_builds w; resume_builds := r;
     monitor_builds := monitor_builds w; fetch_logs := fetch_logs w;
     fetch_artifacts := fetch_artifacts w; cancel_builds := cancel_builds w;
     cleanup := cleanup w |}.

Definition with_monitor_builds (r : list MonitoringSnapshot * option exn)
           (w : World) : World :=
  {| sudo_as_root := sudo_as_root w; confirm_with_user := confirm_with_user w;
     set_project := set_project w; set_timeout := set_timeout w;
     is_project_private := is_project_private w;
     start_builds := start_builds w; resume_builds := resume_builds w;
     monitor_builds := r; fetch_logs := fetch_logs w;
     fetch_artifacts := fetch_artifacts w; cancel_builds := cancel_builds w;
     cleanup := cleanup w |}.

Definition with_confirm (answer : bool) (w : World) : World :=
  {| sudo_as_root := sudo_as_root w;
     confirm_with_user := fun _ _ => Ok answer;
     set_project := set_project w; set_timeout := set_timeout w;
     is_project_private := is_project_private w;
     start_builds := start_builds w; resume_builds := resume_builds w;
     monitor_builds := monitor_builds w; fetch_logs := fetch_logs w;
     fetch_artifacts := fetch_artifacts w; cancel_builds := cancel_builds w;
     cleanup := cleanup w |}.

Definition one_target : Command := declared [info "amd64" "amd64"].

(** The local timeout strikes after two ticks. *)
Definition timing_out : World :=
  with_monitor_builds
    ([[("amd64", PENDING)]; [("amd64", RUNNING)]], Some (TimeoutError "timed out"))
    calm.

(** The session of an earlier submission is still there. *)
Definition conflicting : World :=
  with_start_builds (Raise (Conflict "409 Conflict")) calm.

(** The service refuses to start builds twice. *)
Definition already_started : World :=
  with_start_builds
    (Raise (OtherException "ValueError" "Cannot start builds if already running builds"))
    calm.

(** Launchpad rejects the submission. *)
Definition rejected : World :=
  with_start_builds (Raise (LaunchpadError "upload failed")) calm.

(** The session to resume is gone. *)
Definition nothing_to_resume : World :=
  with_resume_builds (Raise (LaunchpadError "no such session")) calm.

(** The operator presses Ctrl-C during the first tick and then answers the
    prompt. *)
Definition interrupted (answer : bool) : World :=
  with_confirm answer
    (with_monitor_builds ([[("amd64", RUNNING)]], Some KeyboardInterrupt) calm).

(** Three architectures in three different states. *)
Definition mixed_snapshot : MonitoringSnapshot :=
  [("s390x", FAILED); ("amd64", RUNNING); ("arm64", PENDING)].

(** Two platforms that build the same pair of architectures. *)
Definition twin_plan : list BuildInfo :=
  [{| platform := "desktop"; build_on := "amd64"; build_for := "amd64" |};
   {| platform := "server"; build_on := "amd64"; build_for := "amd64" |}].

(** The public-upload prompt is declined. *)
Definition declining : World := with_confirm false calm.

(** Downloading the logs times out on the network. *)
Definition logs_time_out : World :=
  {| sudo_as_root := false;
     confirm_with_user := fun _ default => Ok default;
     set_project := Ok tt;
     set_timeout := Ok tt;
     is_project_private := Ok false;
     start_builds := Ok ["amd64"];
     resume_builds := Ok ["amd64"];
     monitor_builds := ([[("amd64", SUCCESS)]], None);
     fetch_logs := Raise (TimeoutError "read timed out");
     fetch_artifacts := Ok [{| path_name := "demo_1.0_amd64.snap" |}];
     cancel_builds := Ok tt;
     cleanup := Ok tt |}.

(** Arguments that do not acknowledge the public upload. *)
Definition unacknowledged : Namespace :=
  {| project := None; recover := false;
     launchpad_accept_public_upload := false; launchpad_timeout := 0;
     remote_build_build_fors := None |}.

(** The operator interrupts and confirms, and the farm refuses to cancel. *)
Definition cancel_fails : World :=
  {| sudo_as_root := false;
     confirm_with_user := fun _ _ => Ok true;
     set_project := Ok tt;
     set_timeout := Ok tt;
     is_project_private := Ok false;
     start_builds := Ok ["amd64"];
     resume_builds := Ok ["amd64"];
     monitor_builds := ([[("amd64", RUNNING)]], Some KeyboardInterrupt);
     fetch_logs := Ok [("amd64", Some {| path_name := "demo_amd64.txt" |})];
     fetch_artifacts := Ok [{| path_name := "demo_1.0_amd64.snap" |}];
     cancel_builds := Raise (LaunchpadError "cancel failed");
     cleanup := Ok tt |}.

(** A run with [--launchpad-timeout 30]. *)
Definition timed : Namespace :=
  {| project := None; recover := false;
     launchpad_accept_public_upload := true; launchpad_timeout := 30;
     remote_build_build_fors := None |}.

End Example.

(** ** The vocabulary of the properties *)

(** The five buckets of a tick, in the order the progress line lists them. *)
Inductive bucket : Type :=
| Stopped
| Building
| Uploading
| Succeeded
| Pending.

Definition bucket_order : list bucket :=
  [Stopped; Building; Uploading; Succeeded; Pending].

Definition members (k : bucket) (b : Buckets) : list string :=
  match k with
  | Stopped => not_building b
  | Building => building b
  | Uploading => uploading b
  | Succeeded => succeeded b
  | Pending => pending b
  end.

(** The bucket of a state: running builds are building, FAILED and CANCELLED
    builds are stopped. *)
Definition bucket_of (s : BuildState) : bucket :=
  match s with
  | RUNNING => Building
  | SUCCESS => Succeeded
  | UPLOADING => Uploading
  | PENDING => Pending
  | FAILED | CANCELLED => Stopped
  end.

Definition bucket_label (k : bucket) : string :=
  match k with
  | Stopped => "Stopped: "
  | Building => "Building: "
  | Uploading => "Uploading: "
  | Succeeded => "Succeeded: "
  | Pending => "Pending: "
  end.

Definition bucket_separator (k : bucket) : string :=
  match k with
  | Stopped | Uploading => ","
  | Building | Succeeded | Pending => ", "
  end.

(** The build-for values the plan pairs with one build-on, in plan order. *)
Definition build_fors_on (plan : list BuildInfo) (on : string) : list string :=
  build_fors_of (filter (fun info => String.eqb (build_on info) on) plan).

(** Some build-on is paired with two different build-for values. *)
Definition distinct_build_fors_conflict (plan : list BuildInfo) : Prop :=
  exists on for1 for2,
    In for1 (build_fors_on plan on) /\ In for2 (build_fors_on plan on)
    /\ for1 <> for2.

(** What one override entry selects from the plan, and what a whole override
    list accumulates. *)
Definition selected (lib : Library) (plan : list BuildInfo) (entry : string)
  : list string :=
  build_fors_of (filter_plan lib plan None (Some entry) None).

Definition accumulated (lib : Library) (plan : list BuildInfo)
           (build_fors : list string) : list string :=
  flat_map (selected lib plan) build_fors.

(** ** The [--build-for] option

    [_fill_parser] gives the option the type
    [lambda arg: [arch.strip() for arch in arg.split(",")]]. *)

Module Parser.

(** [c.isspace()] for a code point below 256: tab to carriage return, the
    four separators, the space, NEL and the no-break space. *)
Definition isspace (c : ascii) : bool :=
  let n := nat_of_ascii c in
  (Nat.leb 9 n && Nat.leb n 13) || (Nat.leb 28 n && Nat.leb n 32)
  || Nat.eqb n 133 || Nat.eqb n 160.

Fixpoint lstrip (s : string) : string :=
  match s with
  | EmptyString => EmptyString
  | String c s' => if isspace c then lstrip s' else s
  end.

Fixpoint rstrip (s : string) : string :=
  match s with
  | EmptyString => EmptyString
  | String c s' =>
      match rstrip s' with
      | EmptyString => if isspace c then EmptyString else String c EmptyString
      | r => String c r
      end
  end.

(** [s.strip()] *)
Definition strip (s : string) : string := rstrip (lstrip s).

(** [s.split(sep)] for a separator of one character. *)
Fixpoint split (sep : ascii) (s : string) : list string :=
  match s with
  | EmptyString => [EmptyString]
  | String c s' =>
      if Ascii.eqb c sep then EmptyString :: split sep s'
      else match split sep s' with
           | [] => [String c EmptyString]
           | x :: xs => String c x :: xs
           end
  end.

Definition comma : ascii := ","%char.

(** The [type] of [--build-for]. *)
Definition build_for_type (arg : string) : list string :=
  map strip (split comma arg).

(** [s.count(c)] for a character. *)
Definition count_char (c : ascii) (s : string) : nat :=
  List.length (filter (Ascii.eqb c) (list_ascii_of_string s)).

(** Every character of [s] is white space. *)
Definition blank (s : string) : bool :=
  forallb isspace (list_ascii_of_string s).

(** [s[0]] and [s[-1]], when [s] is not empty. *)
Definition first_char (s : string) : option ascii :=
  match s with
  | EmptyString => None
  | String c _ => Some c
  end.

Fixpoint last_char (s : string) : option ascii :=
  match s with
  | EmptyString => None
  | String c EmptyString => Some c
  | String _ rest => last_char rest
  end.

(** [piece] is [entry] with white space, and nothing else, around it. *)
Definition padded (piece entry : string) : Prop :=
  exists pre post,
    piece = pre +++ entry +++ post /\ blank pre = true /\ blank post = true.

End Parser.

(** More kinds of calls. *)
Definition is_confirm_with_user (ev : event) : bool :=
  match ev with call_confirm_with_user _ _ => true | _ => false end.
Definition is_is_project_private (ev : event) : bool :=
  match ev with call_is_project_private => true | _ => false end.
Definition is_monitor_builds (ev : event) : bool :=
  match ev with call_monitor_builds => true | _ => false end.

(** The message of the loop that follows the monitoring, for one
    architecture. *)
Definition failure_report (arch : string) : event :=
  emit_progress ("Build for architecture " +++ arch +++ " failed.") true.

(** The architectures of a snapshot whose state is FAILED, in iteration
    order. *)
Definition failed_archs (states : MonitoringSnapshot) : list string :=
  map fst (filter (fun kv => BuildState_eqb (snd kv) FAILED) states).

Definition is_set_timeout (ev : event) : bool :=
  match ev with call_set_timeout _ => true | _ => false end.

(** An entry [--build-for] accepts: a supported architecture or [all]. *)
Definition supported_build_for (lib : Library) (entry : string) : bool :=
  existsb (String.eqb entry) (SUPPORTED_ARCHS lib ++ ["all"]).

(** * Properties *)

(** ** Strings, sorting and sets *)

Module PyFacts.

Definition str_le (a b : string) : Prop := String.leb a b = true.

Lemma append_assoc (a b c : string) : (a +++ b) +++ c = a +++ b +++ c.
Proof.
  induction a as [|ch a IH]; simpl; [reflexivity|]. now rewrite IH.
Qed.

Lemma contains_refl (s : string) : Py.contains s s.
Proof.
  exists EmptyString, EmptyString. simpl.
  induction s as [|c s IH]; simpl; congruence.
Qed.

Lemma contains_append_l (t s pre : string) :
  Py.contains t s -> Py.contains t (pre +++ s).
Proof.
  intros (p & q & ->). exists (pre +++ p), q. now rewrite append_assoc.
Qed.

Lemma contains_append_r (t s post : string) :
  Py.contains t s -> Py.contains t (s +++ post).
Proof.
  intros (p & q & ->). exists p, (q +++ post). now rewrite !append_assoc.
Qed.

Lemma contains_cons (t s : string) (c : ascii) :
  Py.contains t s -> Py.contains t (String c s).
Proof.
  intros (p & q & ->). now exists (String c p), q.
Qed.

Lemma repr_body_append (q : ascii) (a b : string) :
  Py.repr_body q (a +++ b) = Py.repr_body q a +++ Py.repr_body q b.
Proof.
  induction a as [|c a IH]; simpl; [reflexivity|].
  now rewrite IH, append_assoc.
Qed.

Lemma repr_quote_cases (s : string) :
  Py.repr_quote s = Py.squote \/ Py.repr_quote s = Py.dquote.
Proof.
  unfold Py.repr_quote. destruct (_ && _); auto.
Qed.

Lemma repr_escape_plain (q c : ascii) :
  q = Py.squote \/ q = Py.dquote ->
  Py.plain_char c = true -> Py.repr_escape q c = String c EmptyString.
Proof.
  intros Hq Hc. unfold Py.plain_char in Hc.
  repeat rewrite andb_true_iff in Hc.
  destruct Hc as [[[[H32 H127] Hs] Hd] Hb].
  apply Nat.leb_le in H32. apply Nat.ltb_lt in H127.
  apply negb_true_iff in Hs, Hd, Hb.
  unfold Py.repr_escape.
  replace (Ascii.eqb c q) with false by (destruct Hq; subst; auto).
  rewrite Hb. simpl.
  replace (Nat.eqb (nat_of_ascii c) 9) with false
    by (symmetry; apply Nat.eqb_neq; lia).
  replace (Nat.eqb (nat_of_ascii c) 10) with false
    by (symmetry; apply Nat.eqb_neq; lia).
  replace (Nat.eqb (nat_of_ascii c) 13) with false
    by (symmetry; apply Nat.eqb_neq; lia).
  replace (Nat.ltb (nat_of_ascii c) 32) with false
    by (symmetry; apply Nat.ltb_ge; lia).
  replace (Nat.eqb (nat_of_ascii c) 127) with false
    by (symmetry; apply Nat.eqb_neq; lia).
  simpl.
  now replace (Nat.ltb (nat_of_ascii c) 127) with true
    by (symmetry; apply Nat.ltb_lt; lia).
Qed.

Lemma repr_body_plain (q : ascii) (s : string) :
  q = Py.squote \/ q = Py.dquote ->
  Py.plain s = true -> Py.repr_body q s = s.
Proof.
  intros Hq. unfold Py.plain.
  induction s as [|c s IH]; simpl; [reflexivity|].
  rewrite andb_true_iff. intros [Hc Hs].
  now rewrite (repr_escape_plain q c Hq Hc), (IH Hs).
Qed.

(** [repr] of a text made of plain characters only puts it between single
    quotes. *)
Lemma has_char_plain (c : ascii) (s : string) :
  Py.plain_char c = false -> Py.plain s = true -> Py.has_char c s = false.
Proof.
  intros Hc. unfold Py.has_char, Py.plain.
  induction (list_ascii_of_string s) as [|d l IH]; [reflexivity|].
  cbn [forallb existsb]. intros [Hd Hl]%andb_true_iff.
  rewrite (IH Hl), orb_false_r.
  destruct (Ascii.eqb_spec c d) as [->|]; congruence.
Qed.

(** [repr] of a text made of plain characters only puts it between single
    quotes. *)
Lemma repr_plain (s : string) :
  Py.plain s = true ->
  Py.repr s = String Py.squote (s +++ String Py.squote EmptyString).
Proof.
  intros Hs. unfold Py.repr.
  assert (Hq : Py.repr_quote s = Py.squote).
  { unfold Py.repr_quote.
    now rewrite (has_char_plain Py.squote s eq_refl Hs). }
  rewrite Hq. now rewrite repr_body_plain by auto.
Qed.

Lemma insert_sorted_perm (x : string) (l : list string) :
  Permutation (x :: l) (Py.insert_sorted x l).
Proof.
  induction l as [|y l IH]; simpl; [reflexivity|].
  destruct (String.leb x y); [reflexivity|].
  rewrite perm_swap. now constructor.
Qed.

Lemma sorted_perm (l : list string) : Permutation l (Py.sorted l).
Proof.
  induction l as [|x l IH]; simpl; [constructor|].
  rewrite <- insert_sorted_perm. now constructor.
Qed.

Lemma insert_sorted_HdRel (y x : string) (l : list string) :
  str_le y x -> HdRel str_le y l -> HdRel str_le y (Py.insert_sorted x l).
Proof.
  intros Hyx Hl. destruct l as [|z l]; simpl.
  - now constructor.
  - destruct (String.leb x z); constructor; auto. now inversion Hl.
Qed.

Lemma insert_sorted_Sorted (x : string) (l : list string) :
  Sorted str_le l -> Sorted str_le (Py.insert_sorted x l).
Proof.
  induction 1 as [|y l Hl IH Hy]; simpl.
  - repeat constructor.
  - destruct (String.leb x y) eqn:E.
    + repeat constructor; auto.
    + constructor; [exact IH|].
      apply insert_sorted_HdRel; [|exact Hy].
      destruct (String.leb_total x y) as [H|H]; [congruence|exact H].
Qed.

Lemma sorted_Sorted (l : list string) : Sorted str_le (Py.sorted l).
Proof.
  induction l as [|x l IH]; simpl; [constructor|].
  now apply insert_sorted_Sorted.
Qed.

Lemma sorted_In (l : list string) (x : string) : In x (Py.sorted l) <-> In x l.
Proof.
  split; apply Permutation_in; [symmetry|]; apply sorted_perm.
Qed.

Lemma set_add_In (a x : string) (s : list string) :
  In a (Py.set_add x s) <-> a = x \/ In a s.
Proof.
  unfold Py.set_add. destruct (in_dec string_dec x s) as [Hx|Hx].
  - split; [auto|]. intros [->|H]; auto.
  - rewrite in_app_iff. simpl. intuition.
Qed.

Lemma set_add_NoDup (x : string) (s : list string) :
  NoDup s -> NoDup (Py.set_add x s).
Proof.
  intros Hs. unfold Py.set_add. destruct (in_dec string_dec x s) as [Hx|Hx]; [exact Hs|].
  apply NoDup_app; [exact Hs|repeat constructor; simpl; tauto|].
  intros a Ha [<-|[]]. contradiction.
Qed.

End PyFacts.

(** ** Traces *)

Module TraceFacts.

Lemma calls_app (k : event -> bool) (t1 t2 : list event) :
  calls k (t1 ++ t2) = calls k t1 + calls k t2.
Proof.
  unfold calls. now rewrite filter_app, length_app.
Qed.

(** Every event of the computation satisfies [P]. *)
Definition only {A} (P : event -> bool) (m : M A) : Prop :=
  forallb P (trace m) = true.

Lemma only_ret {A} (P : event -> bool) (a : A) : only P (ret a).
Proof. reflexivity. Qed.

Lemma only_raise {A} (P : event -> bool) (e : exn) : only P (@raise A e).
Proof. reflexivity. Qed.

Lemma only_lift {A} (P : event -> bool) (r : result A) : only P (lift r).
Proof. reflexivity. Qed.

Lemma only_emit (P : event -> bool) (ev : event) : P ev = true -> only P (emit ev).
Proof. unfold only. simpl. now intros ->. Qed.

Lemma only_call {A} (P : event -> bool) (ev : event) (r : result A) :
  P ev = true -> only P (call ev r).
Proof. unfold only. simpl. now intros ->. Qed.

Lemma only_bind {A B} (P : event -> bool) (m : M A) (f : A -> M B) :
  only P m -> (forall a, only P (f a)) -> only P (bind m f).
Proof.
  unfold only, bind. destruct m as [t [a|e]]; simpl; intros Hm Hf; [|exact Hm].
  specialize (Hf a). destruct (f a) as [t' r]. simpl in *.
  now rewrite forallb_app, Hm, Hf.
Qed.

Lemma only_try_except {A} (P : event -> bool) (m : M A) (h : exn -> M A) :
  only P m -> (forall e, only P (h e)) -> only P (try_except m h).
Proof.
  unfold only, try_except. destruct m as [t [a|e]]; simpl; intros Hm Hh; [exact Hm|].
  specialize (Hh e). destruct (h e) as [t' r]. simpl in *.
  now rewrite forallb_app, Hm, Hh.
Qed.

Lemma only_when (P : event -> bool) (c : bool) (m : M unit) :
  only P m -> only P (when c m).
Proof. destruct c; simpl; auto using only_ret. Qed.

Lemma only_calls (P k : event -> bool) (t : list event) :
  forallb P t = true -> (forall ev, P ev = true -> k ev = false) -> calls k t = 0.
Proof.
  intros Ht HP. unfold calls. induction t as [|ev t IH]; [reflexivity|].
  simpl in *. apply andb_true_iff in Ht as [Hev Ht].
  rewrite (HP ev Hev). auto.
Qed.

(** Events of the setup phase: messages, the sudo pause, prompts and the
    three configuration calls. *)
Definition setup_event (ev : event) : bool :=
  match ev with
  | emit_progress _ _ | time_sleep _ | call_confirm_with_user _ _
  | call_set_project _ | call_set_timeout _ | call_is_project_private => true
  | _ => false
  end.

(** Events of the monitoring phase: messages, the monitoring generator and
    the two fetches. *)
Definition monitor_event (ev : event) : bool :=
  match ev with
  | emit_progress _ _ | emit_message _ | call_monitor_builds
  | call_fetch_logs | call_fetch_artifacts => true
  | _ => false
  end.

Ltac only_step :=
  first
    [ apply only_ret | apply only_raise | apply only_lift
    | apply only_emit; reflexivity | apply only_call; reflexivity
    | apply only_when
    | apply only_bind; [|intros ?]
    | apply only_try_except; [|intros ?] ].

Lemma only_check_build_fors (lib : Library) (P : event -> bool) (l : list string) :
  only P (check_build_fors lib l).
Proof.
  induction l as [|x l IH]; simpl; [apply only_ret|].
  destruct (negb _); [apply only_raise|exact IH].
Qed.

Lemma only_validate_single (lib : Library) (self : Command) (P : event -> bool) :
  only P (_validate_single_artifact_per_build_on lib self).
Proof.
  unfold _validate_single_artifact_per_build_on.
  destruct (Py.truthy_list _); only_step.
Qed.

Lemma only_validate (lib : Library) (w : World) (self : Command) (args : Namespace) :
  only setup_event (_validate lib w self args).
Proof.
  unfold _validate.
  apply only_bind; [repeat only_step|intros _].
  apply only_bind.
  - destruct (launchpad_accept_public_upload args); [only_step|].
    apply only_bind.
    + destruct (negb _); repeat only_step.
    + intros [|]; repeat only_step.
  - intros [|]; [only_step|].
    apply only_bind; [apply only_check_build_fors|intros _].
    apply only_validate_single.
Qed.

Lemma only_run_setup (lib : Library) (w : World) (self : Command) (args : Namespace) :
  only setup_event (_run_setup lib w self args).
Proof.
  unfold _run_setup.
  apply only_bind; [repeat only_step|intros _].
  apply only_bind; [repeat only_step|intros _].
  apply only_bind; [apply only_validate|intros _].
  repeat only_step.
Qed.

Lemma only_monitor_ticks (P : event -> bool) (snaps : list MonitoringSnapshot)
      (states : MonitoringSnapshot) :
  (forall text, P (emit_progress text false) = true) ->
  only P (monitor_ticks snaps states).
Proof.
  intros HP. revert states.
  induction snaps as [|s snaps IH]; intros states; cbn [monitor_ticks];
    [apply only_ret|].
  apply only_bind; [apply only_emit, HP|intros _; apply IH].
Qed.

Lemma only_report_failed (P : event -> bool) (items : MonitoringSnapshot) (rc : Z) :
  (forall text, P (emit_progress text true) = true) ->
  only P (report_failed items rc).
Proof.
  intros HP. revert rc.
  induction items as [|[arch st] items IH]; intros rc; cbn [report_failed];
    [apply only_ret|].
  destruct (BuildState_eqb st FAILED); [|apply IH].
  apply only_bind; [apply only_emit, HP|intros _; apply IH].
Qed.

Lemma only_monitor_loop (w : World) : only monitor_event (monitor_loop w).
Proof.
  unfold monitor_loop.
  apply only_bind; [repeat only_step|intros _].
  apply only_bind; [apply only_monitor_ticks; reflexivity|intros states].
  destruct (snd (monitor_builds w)); only_step.
Qed.

Lemma only_monitor_and_complete (w : World) (self : Command)
      (build_id : option string) (builds : list Build) :
  only monitor_event (_monitor_and_complete w self build_id builds).
Proof.
  unfold _monitor_and_complete.
  apply only_bind; [repeat only_step|intros _].
  apply only_bind.
  - apply only_try_except.
    + apply only_bind; [apply only_monitor_loop|intros ?; only_step].
    + intros []; repeat only_step.
  - intros [states|code]; [|only_step].
    apply only_bind; [apply only_report_failed; reflexivity|intros rc].
    apply only_bind; [repeat only_step|intros _].
    apply only_bind; [repeat only_step|intros logs].
    apply only_bind; [destruct (negb _); repeat only_step|intros rc'].
    apply only_bind; [repeat only_step|intros _].
    apply only_bind; [repeat only_step|intros arts].
    apply only_bind; [destruct (negb _); repeat only_step|intros rc''].
    repeat only_step.
Qed.

End TraceFacts.

(** ** The lifecycle, step by step *)

Module RunFacts.

Import TraceFacts.

Lemma bind_ok {A B} (m : M A) (f : A -> M B) (t : list event) (a : A) :
  m = (t, Ok a) -> bind m f = (t ++ trace (f a), outcome (f a)).
Proof.
  intros ->. simpl. now destruct (f a).
Qed.

Lemma bind_raise {A B} (m : M A) (f : A -> M B) (t : list event) (e : exn) :
  m = (t, Raise e) -> bind m f = (t, Raise e).
Proof.
  now intros ->.
Qed.

Lemma surjective_M {A} (m : M A) : m = (trace m, outcome m).
Proof. now destruct m. Qed.

Definition tick (s : MonitoringSnapshot) : event :=
  emit_progress (progress_line s) false.

Lemma last_cons {A} (l : list A) (a d : A) : last (a :: l) d = last l a.
Proof.
  revert a d. induction l as [|b l IH]; intros a d; [reflexivity|].
  change (last (a :: b :: l) d) with (last (b :: l) d).
  now rewrite (IH b d), (IH b a).
Qed.

Lemma monitor_ticks_eq (snaps : list MonitoringSnapshot) (states : MonitoringSnapshot) :
  monitor_ticks snaps states = (map tick snaps, Ok (last snaps states)).
Proof.
  revert states. induction snaps as [|s snaps IH]; intros states; [reflexivity|].
  cbn [monitor_ticks]. unfold bind, emit. rewrite IH, last_cons.
  reflexivity.
Qed.

Lemma calls_ticks (k : event -> bool) (snaps : list MonitoringSnapshot) :
  (forall text p, k (emit_progress text p) = false) ->
  calls k (map tick snaps) = 0.
Proof.
  intros Hk. unfold calls. induction snaps as [|s snaps IH]; [reflexivity|].
  simpl. unfold tick at 1. now rewrite Hk.
Qed.

(** The failure report ends with 1 when some state is FAILED and leaves the
    return code alone otherwise. *)
Lemma report_failed_outcome (items : MonitoringSnapshot) (rc : Z) :
  outcome (report_failed items rc)
  = Ok (if existsb (fun kv => BuildState_eqb (snd kv) FAILED) items then 1%Z else rc).
Proof.
  revert rc. induction items as [|[arch st] items IH]; intros rc; [reflexivity|].
  cbn [report_failed existsb snd].
  destruct (BuildState_eqb st FAILED); cbn [orb].
  - unfold bind, emit. specialize (IH 1%Z).
    destruct (report_failed items 1) as [t r]. simpl in *. rewrite IH.
    now destruct (existsb _ items).
  - apply IH.
Qed.

Lemma calls_report_failed (k : event -> bool) (items : MonitoringSnapshot) (rc : Z) :
  (forall text p, k (emit_progress text p) = false) ->
  calls k (trace (report_failed items rc)) = 0.
Proof.
  intros Hk.
  apply (only_calls (fun ev => negb (k ev))).
  - apply (only_report_failed (fun ev => negb (k ev))). intros text. now rewrite Hk.
  - intros ev. now destruct (k ev).
Qed.

(** The monitoring phase when the generator raises the local timeout. *)
Lemma monitor_timeout_eq (w : World) (self : Command) (build_id : option string)
      (builds : list Build) (snaps : list MonitoringSnapshot) (msg : string) :
  monitor_builds w = (snaps, Some (TimeoutError msg)) ->
  _monitor_and_complete w self build_id builds
  = (emit_progress "Monitoring build" false :: call_monitor_builds
       :: map tick snaps ++ [emit_message (timeout_message self build_id)],
     Ok 75%Z).
Proof.
  intros H. unfold _monitor_and_complete, monitor_loop. rewrite H.
  cbn [fst snd]. rewrite monitor_ticks_eq. cbn.
  now rewrite !app_nil_r.
Qed.

(** The monitoring phase when the generator stops and both fetches return. *)
Lemma monitor_complete (w : World) (self : Command) (build_id : option string)
      (builds : list Build) (snaps : list MonitoringSnapshot)
      (logs : list (string * option Path)) (artifacts : list Path) :
  monitor_builds w = (snaps, None) ->
  fetch_logs w = Ok logs ->
  fetch_artifacts w = Ok artifacts ->
  let m := _monitor_and_complete w self build_id builds in
  outcome m
  = Ok (if existsb (fun kv => BuildState_eqb (snd kv) FAILED) (last snaps [])
           || negb (Py.truthy_list logs) || negb (Py.truthy_list artifacts)
        then 1%Z else 0%Z)
  /\ calls is_fetch_logs (trace m) = 1
  /\ calls is_fetch_artifacts (trace m) = 1.
Proof.
  intros Hm Hl Ha. unfold _monitor_and_complete, monitor_loop. rewrite Hm, Hl, Ha.
  cbn [fst snd]. rewrite monitor_ticks_eq.
  pose proof (report_failed_outcome (last snaps []) 0) as Hrc.
  pose proof (calls_report_failed is_fetch_logs (last snaps []) 0
                                  (fun _ _ => eq_refl)) as Hfl.
  pose proof (calls_report_failed is_fetch_artifacts (last snaps []) 0
                                  (fun _ _ => eq_refl)) as Hfa.
  pose proof (calls_ticks is_fetch_logs snaps (fun _ _ => eq_refl)) as Htl.
  pose proof (calls_ticks is_fetch_artifacts snaps (fun _ _ => eq_refl)) as Hta.
  cbn [bind try_except emit call ret app].
  destruct (report_failed (last snaps []) 0) as [tf rf].
  cbn [trace outcome fst snd] in Hrc, Hfl, Hfa. subst rf.
  destruct logs as [|l logs], artifacts as [|a artifacts];
    destruct (existsb _ (last snaps []));
    cbn [bind try_except emit call ret trace outcome fst snd
         Py.truthy_list negb orb app];
    (split; [reflexivity|]);
    rewrite ?app_nil_r;
    change (?x :: ?y :: ?l) with ([x; y] ++ l);
    rewrite !calls_app, Htl, ?Hfl, ?Hfa, ?Hta; split; reflexivity.
Qed.

(** A successful submission has called neither [cleanup] nor
    [cancel_builds]. *)
Lemma submit_running (w : World) (self : Command) (args : Namespace)
      (archs : list string) (id : string) (t1 : list event) (builds : list Build) :
  _run_submit w self args archs id = (t1, Ok (inl builds)) ->
  calls is_cleanup t1 = 0 /\ calls is_cancel_builds t1 = 0.
Proof.
  unfold _run_submit.
  destruct (recover args).
  - destruct (resume_builds w); cbn; intros [= <- _]; auto.
  - destruct (start_builds w) as [b|e]; cbn; [intros [= <- _]; auto|].
    destruct e; cbn; try discriminate;
      destruct (cleanup w); cbn; discriminate.
Qed.

Lemma run_after_setup (lib : Library) (w : World) (self : Command) (args : Namespace)
      (t0 : list event) (archs : list string) (id : string) :
  _run_setup lib w self args = (t0, Ok (archs, id)) ->
  forall rest : M Z,
    rest = (submitted <- _run_submit w self args archs id;;
            match submitted with
            | inr code => ret code
            | inl builds => _run_monitor w self id builds
            end) ->
    _run lib w self args = (t0 ++ trace rest, outcome rest).
Proof.
  intros H rest ->. unfold _run. now rewrite (bind_ok _ _ _ _ H).
Qed.

Lemma run_after_submit (lib : Library) (w : World) (self : Command) (args : Namespace)
      (t0 t1 : list event) (archs : list string) (id : string) (builds : list Build) :
  _run_setup lib w self args = (t0, Ok (archs, id)) ->
  _run_submit w self args archs id = (t1, Ok (inl builds)) ->
  _run lib w self args
  = (t0 ++ t1 ++ trace (_run_monitor w self id builds),
     outcome (_run_monitor w self id builds)).
Proof.
  intros H0 H1. rewrite (run_after_setup _ _ _ _ _ _ _ H0 _ eq_refl).
  now rewrite (bind_ok _ _ _ _ H1).
Qed.

(** The text of the timeout message around the escaped build id. *)
Lemma timeout_message_id (self : Command) (id : string) :
  Py.truthy_str id = true ->
  exists q pre,
    (q = Py.squote \/ q = Py.dquote) /\
    timeout_message self (Some id)
    = pre +++ "--recover --build-id=" +++ Py.repr_body q id +++ String q EmptyString.
Proof.
  intros Hid. unfold timeout_message, resume_command, Py.repr. cbn [Py.truthy_opt_str].
  rewrite Hid.
  set (cmd := app_name self +++ " remote-build --recover --build-id=" +++ id).
  set (q := Py.repr_quote cmd).
  assert (Hq : q = Py.squote \/ q = Py.dquote) by apply PyFacts.repr_quote_cases.
  clearbody q. subst cmd.
  exists q.
  exists ("Timed out waiting for build." +++ Py.nl +++ "To resume, run "
            +++ String q (Py.repr_body q (app_name self) +++ " remote-build ")).
  split; [exact Hq|].
  rewrite !PyFacts.repr_body_append.
  replace (Py.repr_body q " remote-build --recover --build-id=")
    with (" remote-build " +++ "--recover --build-id=")
    by (destruct Hq as [-> | ->]; reflexivity).
  rewrite !PyFacts.append_assoc. cbn [String.append].
  now rewrite !PyFacts.append_assoc.
Qed.

Lemma timeout_message_recover (self : Command) (build_id : option string) :
  Py.contains "--recover" (timeout_message self build_id).
Proof.
  unfold timeout_message, resume_command, Py.repr.
  set (cmd := if Py.truthy_opt_str build_id then _ else _).
  set (q := Py.repr_quote cmd).
  assert (Hq : q = Py.squote \/ q = Py.dquote) by apply PyFacts.repr_quote_cases.
  clearbody q.
  apply (PyFacts.contains_append_l _ _ "Timed out waiting for build.").
  apply (PyFacts.contains_append_l _ _ Py.nl).
  apply (PyFacts.contains_append_l _ _ "To resume, run ").
  apply PyFacts.contains_cons, PyFacts.contains_append_r.
  subst cmd. destruct (Py.truthy_opt_str build_id).
  - rewrite !PyFacts.repr_body_append. apply PyFacts.contains_append_l.
    apply PyFacts.contains_append_r.
    exists " remote-build ", " --build-id=". destruct Hq as [-> | ->]; reflexivity.
  - rewrite !PyFacts.repr_body_append. apply PyFacts.contains_append_l.
    exists " remote-build ", EmptyString. destruct Hq as [-> | ->]; reflexivity.
Qed.

Lemma only_weaken {A} (P Q : event -> bool) (m : M A) :
  (forall ev, P ev = true -> Q ev = true) -> only P m -> only Q m.
Proof.
  unfold only. intros HPQ. induction (trace m) as [|ev t IH]; [reflexivity|].
  simpl. intros [Hev Ht]%andb_true_iff. now rewrite (HPQ ev Hev), IH.
Qed.

(** Events of the closing phase: those of the monitoring, the cancel prompt,
    [cancel_builds] and [cleanup]. *)
Definition closing_event (ev : event) : bool :=
  match ev with
  | call_confirm_with_user _ _ | call_cancel_builds | call_cleanup => true
  | _ => monitor_event ev
  end.

Lemma only_run_monitor (w : World) (self : Command) (id : string)
      (builds : list Build) :
  only closing_event (_run_monitor w self id builds).
Proof.
  unfold _run_monitor.
  apply only_bind.
  - apply only_try_except.
    + apply only_bind; [|intros ?; only_step].
      apply (only_weaken monitor_event); [now intros []|].
      apply only_monitor_and_complete.
    + intros []; repeat only_step.
  - intros [rc|code]; repeat only_step.
Qed.

Lemma setup_trace (lib : Library) (w : World) (self : Command) (args : Namespace)
      (t0 : list event) (r : result (list string * string)) :
  _run_setup lib w self args = (t0, r) -> forallb setup_event t0 = true.
Proof.
  intros H. pose proof (only_run_setup lib w self args) as Ho.
  unfold only in Ho. now rewrite H in Ho.
Qed.

Lemma setup_calls (k : event -> bool) (t0 : list event) :
  forallb setup_event t0 = true ->
  (forall ev, setup_event ev = true -> k ev = false) ->
  calls k t0 = 0.
Proof.
  intros H Hk. now apply (only_calls setup_event).
Qed.

End RunFacts.

(** ** The build lifecycle *)

Section Lifecycle.

Import TraceFacts RunFacts.

Variable lib : Library.
Variable w : World.
Variable self : Command.
Variable parsed_args : Namespace.

(** C1. When the monitoring loop raises the local timeout, the command
    emits the message that offers the resume command, returns 75
    ([os.EX_TEMPFAIL]) and never calls [cleanup]. The resume command always
    holds [--recover]; when the build id is known (not [None], not empty) it
    ends in [--build-id=] followed by the id. The message prints the command
    through [repr], so the id appears in it as written whenever it is made
    of plain characters. *)
Theorem timeout_defers_cleanup
        (t0 t1 : list event) (archs : list string) (id : string)
        (builds : list Build) (snaps : list MonitoringSnapshot) (msg : string) :
  _run_setup lib w self parsed_args = (t0, Ok (archs, id)) ->
  _run_submit w self parsed_args archs id = (t1, Ok (inl builds)) ->
  monitor_builds w = (snaps, Some (TimeoutError msg)) ->
  let r := _run lib w self parsed_args in
  outcome r = Ok EX_TEMPFAIL
  /\ EX_TEMPFAIL = 75%Z
  /\ calls is_cleanup (trace r) = 0
  /\ (exists t, trace r = t ++ [emit_message (timeout_message self (Some id))])
  /\ (forall build_id : option string,
         outcome (_monitor_and_complete w self build_id builds) = Ok 75%Z
         /\ calls is_cleanup (trace (_monitor_and_complete w self build_id builds)) = 0
         /\ In (emit_message (timeout_message self build_id))
               (trace (_monitor_and_complete w self build_id builds))
         /\ Py.contains "--recover" (resume_command self build_id)
         /\ Py.contains "--recover" (timeout_message self build_id))
  /\ (Py.truthy_str id = true ->
      resume_command self (Some id)
      = app_name self +++ " remote-build --recover --build-id=" +++ id
      /\ (Py.plain id = true ->
          Py.contains ("--recover --build-id=" +++ id)
                      (timeout_message self (Some id)))).
Proof.
  intros H0 H1 Hm r. subst r.
  pose proof (run_after_submit _ _ _ _ _ _ _ _ _ H0 H1) as Hr.
  assert (Hmon : _run_monitor w self id builds
                 = (emit_progress "Monitoring build" false :: call_monitor_builds
                      :: map tick snaps
                      ++ [emit_message (timeout_message self (Some id))],
                    Ok 75%Z)).
  { unfold _run_monitor.
    rewrite (monitor_timeout_eq w self (Some id) builds snaps msg Hm).
    cbn [bind try_except ret when app Z.eqb EX_TEMPFAIL Pos.eqb negb].
    now rewrite !app_nil_r. }
  rewrite Hmon in Hr. cbn [trace outcome fst snd] in Hr.
  rewrite Hr. cbn [trace outcome fst snd].
  split; [reflexivity|]. split; [reflexivity|]. split; [|split; [|split]].
  - rewrite !calls_app.
    rewrite (setup_calls is_cleanup t0 (setup_trace _ _ _ _ _ _ H0))
      by (now intros []).
    destruct (submit_running _ _ _ _ _ _ _ H1) as [-> _].
    change (?x :: ?y :: ?l) with ([x; y] ++ l). rewrite !calls_app.
    now rewrite calls_ticks.
  - exists (t0 ++ t1 ++ emit_progress "Monitoring build" false
               :: call_monitor_builds :: map tick snaps).
    now rewrite <- !app_assoc.
  - intros build_id.
    rewrite (monitor_timeout_eq w self build_id builds snaps msg Hm).
    cbn [trace outcome fst snd].
    split; [reflexivity|]. split; [|split; [|split]].
    + change (?x :: ?y :: ?l) with ([x; y] ++ l). rewrite !calls_app.
      now rewrite calls_ticks.
    + right. right. apply in_or_app. right. now left.
    + unfold resume_command. destruct (Py.truthy_opt_str build_id).
      * apply PyFacts.contains_append_l, PyFacts.contains_append_r.
        now exists " remote-build ", " --build-id=".
      * apply PyFacts.contains_append_l.
        now exists " remote-build ", EmptyString.
    + apply timeout_message_recover.
  - intros Hid. split.
    + unfold resume_command. cbn [Py.truthy_opt_str]. now rewrite Hid.
    + intros Hplain.
      destruct (timeout_message_id self id Hid) as (q & pre & Hq & ->).
      rewrite (PyFacts.repr_body_plain q id Hq Hplain).
      exists pre, (String q EmptyString).
      now rewrite !PyFacts.append_assoc.
Qed.

(** C2. On a fresh submission that meets a session conflict, [cleanup] is
    called exactly once; when [cleanup] returns, [_run] returns
    [os.EX_TEMPFAIL], and no exception leaves [_run] but one that [cleanup]
    itself raised. *)
Theorem conflict_cleans_up_and_returns_tempfail
        (t0 : list event) (archs : list string) (id msg : string) :
  _run_setup lib w self parsed_args = (t0, Ok (archs, id)) ->
  recover parsed_args = false ->
  start_builds w = Raise (Conflict msg) ->
  let r := _run lib w self parsed_args in
  calls is_cleanup (trace r) = 1
  /\ calls is_start_builds (trace r) = 1
  /\ (cleanup w = Ok tt -> outcome r = Ok EX_TEMPFAIL)
  /\ (forall e, outcome r = Raise e -> cleanup w = Raise e)
  /\ EX_TEMPFAIL = 75%Z.
Proof.
  intros H0 Hrec Hs r. subst r.
  rewrite (run_after_setup _ _ _ _ _ _ _ H0 _ eq_refl).
  unfold _run_submit. rewrite Hrec, Hs.
  pose proof (setup_trace _ _ _ _ _ _ H0) as Ht0.
  cbn [trace outcome fst snd]. rewrite !calls_app.
  rewrite (setup_calls is_cleanup t0 Ht0) by (now intros []).
  rewrite (setup_calls is_start_builds t0 Ht0) by (now intros []).
  destruct (cleanup w) as [[]|e']; cbn;
    (split; [reflexivity|]); (split; [reflexivity|]);
    (split; [|split; [|reflexivity]]); congruence.
Qed.

(** C6, as the code has it. A failure of [start_builds] that is a
    RemoteBuildError or a LaunchpadError is followed by exactly one call of
    [cleanup], which is the last call of the run, and once [cleanup] returns
    the same exception is raised again. Any other exception that is not the
    session conflict leaves [_run] unchanged and without [cleanup] being
    called. *)
Theorem start_failure_cleanup_by_class
        (t0 : list event) (archs : list string) (id : string) (e : exn) :
  _run_setup lib w self parsed_args = (t0, Ok (archs, id)) ->
  recover parsed_args = false ->
  start_builds w = Raise e ->
  (forall msg, e <> Conflict msg) ->
  let r := _run lib w self parsed_args in
  let handled :=
    match e with
    | RemoteBuildError _ _ _ _ _ _ | LaunchpadError _ => true
    | _ => false
    end in
  (handled = true ->
   calls is_cleanup (trace r) = 1
   /\ (exists t, trace r = t ++ [call_start_builds (project_dir self) archs;
                                 emit_progress "Starting build failed." true;
                                 emit_progress "Cleaning up" false;
                                 call_cleanup])
   /\ (cleanup w = Ok tt -> outcome r = Raise e))
  /\ (handled = false ->
      calls is_cleanup (trace r) = 0 /\ outcome r = Raise e).
Proof.
  intros H0 Hrec Hs Hne r handled. subst r handled.
  rewrite (run_after_setup _ _ _ _ _ _ _ H0 _ eq_refl).
  unfold _run_submit. rewrite Hrec, Hs.
  pose proof (setup_trace _ _ _ _ _ _ H0) as Ht0.
  pose proof (setup_calls is_cleanup t0 Ht0) as Hc.
  cbn [trace outcome fst snd].
  destruct e; try (now destruct (Hne message));
    (split; [intros Hh; try discriminate Hh|intros Hh; try discriminate Hh]);
    cbn; rewrite ?calls_app, ?Hc by (now intros []);
    try (split; reflexivity).
  - split; [now destruct (cleanup w)|]. split.
    + eexists (t0 ++ [_]). rewrite <- app_assoc.
      now destruct (cleanup w).
    + now intros ->.
  - split; [now destruct (cleanup w)|]. split.
    + eexists (t0 ++ [_]). rewrite <- app_assoc.
      now destruct (cleanup w).
    + now intros ->.
Qed.

(** C7. When the monitoring loop ends without a timeout and the two fetches
    return, [fetch_logs] and [fetch_artifacts] are each called once whatever
    the final states are, and the return code is 0 exactly when no
    architecture of the final snapshot is FAILED, the log mapping is not
    empty and the artifact list is not empty; it is 1 otherwise. *)
Theorem completion_return_code
        (build_id : option string) (builds : list Build)
        (snaps : list MonitoringSnapshot)
        (logs : list (string * option Path)) (artifacts : list Path) :
  monitor_builds w = (snaps, None) ->
  fetch_logs w = Ok logs ->
  fetch_artifacts w = Ok artifacts ->
  let m := _monitor_and_complete w self build_id builds in
  let states := last snaps [] in
  calls is_fetch_logs (trace m) = 1
  /\ calls is_fetch_artifacts (trace m) = 1
  /\ exists return_code,
      outcome m = Ok return_code
      /\ (return_code = 0%Z \/ return_code = 1%Z)
      /\ (return_code = 0%Z <->
          (forall arch, ~ In (arch, FAILED) states)
          /\ logs <> [] /\ artifacts <> []).
Proof.
  intros Hm Hl Ha m states.
  destruct (monitor_complete w self build_id builds snaps logs artifacts Hm Hl Ha)
    as (Ho & Hfl & Hfa).
  fold m in Ho, Hfl, Hfa. fold states in Ho.
  split; [exact Hfl|]. split; [exact Hfa|].
  eexists. split; [exact Ho|].
  assert (Hfailed : existsb (fun kv => BuildState_eqb (snd kv) FAILED) states = false
                    <-> forall arch, ~ In (arch, FAILED) states).
  { rewrite <- not_true_iff_false, existsb_exists. split.
    - intros Hn arch Hin. apply Hn. now exists (arch, FAILED).
    - intros Hn [[arch st] [Hin Hst]]. destruct st; try discriminate.
      exact (Hn arch Hin). }
  destruct (existsb _ states); cbn [orb].
  - split; [now right|]. split; [discriminate|].
    intros [Hf _]. now apply Hfailed in Hf.
  - destruct logs, artifacts; cbn; (split; [auto|]);
      (split; [try discriminate; intros _|intros (_ & ? & ?); congruence]).
    split; [now apply Hfailed|]. split; discriminate.
Qed.

(** C9, as the code has it. A [KeyboardInterrupt] out of the monitoring
    phase. When the operator confirms, [cancel_builds] is called once; when
    it returns, [cleanup] is called right after it, and [_run] returns
    [os.EX_OK], which is 0, once [cleanup] has returned (an exception of
    [cleanup] leaves [_run]). When [cancel_builds] raises, [cleanup] is not
    called and the exception leaves [_run]: the handler has no [finally].
    When the operator declines, neither is called and [_run] returns 0. An
    exception of the prompt itself leaves [_run] with neither called. *)
Theorem interrupt_cancel_or_leave
        (t0 t1 tm : list event) (archs : list string) (id : string)
        (builds : list Build) :
  _run_setup lib w self parsed_args = (t0, Ok (archs, id)) ->
  _run_submit w self parsed_args archs id = (t1, Ok (inl builds)) ->
  _monitor_and_complete w self (Some id) builds = (tm, Raise KeyboardInterrupt) ->
  let r := _run lib w self parsed_args in
  EX_OK = 0%Z
  /\ (confirm_with_user w "Cancel builds?" true = Ok true ->
      calls is_cancel_builds (trace r) = 1
      /\ (cancel_builds w = Ok tt ->
          calls is_cleanup (trace r) = 1
          /\ (exists t, trace r = t ++ [call_cancel_builds;
                                        emit_progress "Cleaning up." false;
                                        call_cleanup])
          /\ (cleanup w = Ok tt -> outcome r = Ok EX_OK)
          /\ (forall e, cleanup w = Raise e -> outcome r = Raise e))
      /\ (forall e,
             cancel_builds w = Raise e ->
             calls is_cleanup (trace r) = 0
             /\ (exists t, trace r = t ++ [call_cancel_builds])
             /\ outcome r = Raise e))
  /\ (confirm_with_user w "Cancel builds?" true = Ok false ->
      calls is_cancel_builds (trace r) = 0
      /\ calls is_cleanup (trace r) = 0
      /\ outcome r = Ok EX_OK)
  /\ (forall e,
         confirm_with_user w "Cancel builds?" true = Raise e ->
         calls is_cancel_builds (trace r) = 0
         /\ calls is_cleanup (trace r) = 0
         /\ outcome r = Raise e).
Proof.
  intros H0 H1 Hm r. subst r.
  rewrite (run_after_submit _ _ _ _ _ _ _ _ _ H0 H1).
  pose proof (setup_trace _ _ _ _ _ _ H0) as Ht0.
  destruct (submit_running _ _ _ _ _ _ _ H1) as [Hc1 Hk1].
  pose proof (only_monitor_and_complete w self (Some id) builds) as Hom.
  unfold only in Hom. rewrite Hm in Hom. cbn [trace fst] in Hom.
  assert (Hcm : calls is_cleanup tm = 0)
    by (apply (only_calls monitor_event); [exact Hom|now intros []]).
  assert (Hkm : calls is_cancel_builds tm = 0)
    by (apply (only_calls monitor_event); [exact Hom|now intros []]).
  assert (Hc0 : calls is_cleanup t0 = 0)
    by (apply setup_calls; [exact Ht0|now intros []]).
  assert (Hk0 : calls is_cancel_builds t0 = 0)
    by (apply setup_calls; [exact Ht0|now intros []]).
  unfold _run_monitor. rewrite Hm.
  cbn [bind try_except ret call trace outcome fst snd app].
  split; [reflexivity|]. split; [|split].
  - intros ->. cbn [bind try_except ret call emit when trace outcome fst snd app].
    split; [|split].
    + destruct (cancel_builds w) as [[]|ec]; [destruct (cleanup w) as [[]|ec]|];
        cbn [bind try_except ret call emit when trace outcome fst snd app];
        rewrite !calls_app, Hk0, Hk1, Hkm; reflexivity.
    + intros ->. cbn [bind try_except ret call emit when trace outcome fst snd app].
      split; [|split; [|split]].
      * destruct (cleanup w) as [[]|ec];
          cbn [bind try_except ret call emit when trace outcome fst snd app];
          rewrite !calls_app, Hc0, Hc1, Hcm; reflexivity.
      * exists (t0 ++ t1 ++ tm ++ [call_confirm_with_user "Cancel builds?" true;
                                   emit_progress "Cancelling builds." false]).
        destruct (cleanup w) as [[]|ec];
          cbn [bind try_except ret call emit when trace outcome fst snd app];
          rewrite <- !app_assoc; reflexivity.
      * now intros ->.
      * now intros e ->.
    + intros e ->. cbn [bind try_except ret call emit when trace outcome fst snd app].
      split; [|split].
      * rewrite !calls_app, Hc0, Hc1, Hcm. reflexivity.
      * exists (t0 ++ t1 ++ tm ++ [call_confirm_with_user "Cancel builds?" true;
                                   emit_progress "Cancelling builds." false]).
        rewrite <- !app_assoc. reflexivity.
      * reflexivity.
  - intros ->. cbn [bind try_except ret call emit when trace outcome fst snd app].
    rewrite !calls_app, Hk0, Hk1, Hkm, Hc0, Hc1, Hcm. now repeat split.
  - intros e ->. cbn [bind try_except ret call emit when trace outcome fst snd app].
    rewrite !calls_app, Hk0, Hk1, Hkm, Hc0, Hc1, Hcm. now repeat split.
Qed.

(** C10. With [--recover], [start_builds] is never called. Once the setup
    has passed, [resume_builds] is called once, and when it raises, the
    exception leaves [_run] unchanged, [resume_builds] is the last call of
    the run, and neither [cancel_builds] nor [cleanup] is called. *)
Theorem recover_resumes_and_propagates :
  recover parsed_args = true ->
  let r := _run lib w self parsed_args in
  calls is_start_builds (trace r) = 0
  /\ forall t0 archs id,
      _run_setup lib w self parsed_args = (t0, Ok (archs, id)) ->
      calls is_resume_builds (trace r) = 1
      /\ forall e,
          resume_builds w = Raise e ->
          outcome r = Raise e
          /\ trace r = t0 ++ [emit_progress ("Recovering build " +++ id) false;
                              call_resume_builds id]
          /\ calls is_cancel_builds (trace r) = 0
          /\ calls is_cleanup (trace r) = 0.
Proof.
  intros Hrec r. subst r.
  assert (Hsub : forall archs id,
             _run_submit w self parsed_args archs id
             = (x <- (emit (emit_progress ("Recovering build " +++ id) false);;
                      builds <- call (call_resume_builds id) (resume_builds w);;
                      ret (inl builds));;
                ret x)).
  { intros archs id. unfold _run_submit. rewrite Hrec.
    destruct (resume_builds w); reflexivity. }
  split.
  - apply (only_calls (fun ev => negb (is_start_builds ev)));
      [|intros ev; now destruct (is_start_builds ev)].
    change (only (fun ev => negb (is_start_builds ev)) (_run lib w self parsed_args)).
    unfold _run. apply only_bind.
    + apply (only_weaken setup_event); [now intros []|apply only_run_setup].
    + intros [archs id]. apply only_bind.
      * rewrite Hsub. repeat only_step.
      * intros [builds|code]; [|only_step].
        apply (only_weaken closing_event); [now intros []|apply only_run_monitor].
  - intros t0 archs id H0.
    rewrite (run_after_setup _ _ _ _ _ _ _ H0 _ eq_refl).
    pose proof (setup_trace _ _ _ _ _ _ H0) as Ht0.
    unfold _run_submit. rewrite Hrec.
    cbn [trace outcome fst snd]. split.
    + rewrite calls_app, (setup_calls is_resume_builds t0 Ht0) by (now intros []).
      destruct (resume_builds w) as [builds|e]; [|reflexivity].
      cbn [bind try_except ret call emit when trace outcome fst snd app].
      pose proof (only_run_monitor w self id builds) as Hom. unfold only in Hom.
      destruct (_run_monitor w self id builds) as [tm rm].
      cbn [trace outcome fst snd app] in *.
      change (?x :: ?y :: ?l) with ([x; y] ++ l). rewrite !calls_app.
      rewrite (only_calls closing_event is_resume_builds tm Hom) by (now intros []).
      reflexivity.
    + intros e ->. cbn [bind try_except ret call emit when trace outcome fst snd app].
      rewrite !calls_app.
      rewrite (setup_calls is_cancel_builds t0 Ht0) by (now intros []).
      rewrite (setup_calls is_cleanup t0 Ht0) by (now intros []).
      now repeat split.
Qed.

End Lifecycle.

(** ** The per-tick classification *)

Module ClassifyFacts.

Lemma classify_item_members (k : bucket) (b : Buckets) (arch a : string)
      (st : BuildState) :
  In arch (members k (classify_item b (a, st)))
  <-> In arch (members k b) \/ (arch = a /\ bucket_of st = k).
Proof.
  destruct st, k; cbn; rewrite ?PyFacts.set_add_In;
    intuition (congruence || discriminate).
Qed.

Lemma classify_item_NoDup (b : Buckets) (item : string * BuildState) :
  (forall k, NoDup (members k b)) ->
  forall k, NoDup (members k (classify_item b item)).
Proof.
  intros Hb k. destruct item as [a st].
  destruct st, k; cbn; try apply PyFacts.set_add_NoDup;
    first [exact (Hb Stopped) | exact (Hb Building) | exact (Hb Uploading)
          | exact (Hb Succeeded) | exact (Hb Pending)].
Qed.

Lemma fold_members (states : MonitoringSnapshot) (b0 : Buckets) (k : bucket)
      (arch : string) :
  In arch (members k (fold_left classify_item states b0))
  <-> In arch (members k b0)
      \/ exists st, In (arch, st) states /\ bucket_of st = k.
Proof.
  revert b0. induction states as [|[a st] states IH]; intros b0; cbn [fold_left].
  - split; [auto|]. intros [H|(st & [] & _)]. exact H.
  - rewrite IH, classify_item_members. split.
    + intros [[H|[-> H]]|(st' & Hin & H)]; [now left| |].
      * right. exists st. split; [now left|exact H].
      * right. exists st'. split; [now right|exact H].
    + intros [H|(st' & [Heq|Hin] & H)]; [now left; left| |].
      * injection Heq as -> ->. left. right. now split.
      * right. now exists st'.
Qed.

Lemma fold_NoDup (states : MonitoringSnapshot) (b0 : Buckets) :
  (forall k, NoDup (members k b0)) ->
  forall k, NoDup (members k (fold_left classify_item states b0)).
Proof.
  revert b0. induction states as [|item states IH]; intros b0 Hb; cbn [fold_left];
    [exact Hb|].
  apply IH. now apply classify_item_NoDup.
Qed.

Lemma classify_members (states : MonitoringSnapshot) (k : bucket) (arch : string) :
  In arch (members k (classify states))
  <-> exists st, In (arch, st) states /\ bucket_of st = k.
Proof.
  unfold classify. rewrite fold_members. split; [|now right].
  intros [H|H]; [|exact H]. now destruct k.
Qed.

(** A well-formed dict gives one state per key. *)
Lemma one_state (states : MonitoringSnapshot) (arch : string) (s1 s2 : BuildState) :
  NoDup (map fst states) -> In (arch, s1) states -> In (arch, s2) states -> s1 = s2.
Proof.
  induction states as [|[a st] states IH]; cbn; [tauto|].
  intros Hnd [H1|H1] [H2|H2]; inversion Hnd as [|? ? Hnot Hnd']; subst.
  - congruence.
  - injection H1 as -> ->. exfalso. apply Hnot.
    now apply (in_map fst states (arch, s2)).
  - injection H2 as -> ->. exfalso. apply Hnot.
    now apply (in_map fst states (arch, s1)).
  - now apply IH.
Qed.

Lemma progress_parts_eq (b : Buckets) :
  progress_parts b
  = map (fun k => bucket_label k
                    +++ Py.join (bucket_separator k) (Py.sorted (members k b)))
        (filter (fun k => Py.truthy_list (members k b)) bucket_order).
Proof.
  destruct b as [bu su up pe nb]. unfold progress_parts, bucket_order.
  cbn [filter members not_building building uploading succeeded pending].
  destruct nb, bu, up, su, pe; reflexivity.
Qed.

End ClassifyFacts.

(** C8. In a snapshot (a dict, so without repeated keys) every architecture
    is in exactly one of the five buckets and the buckets hold nothing else;
    a bucket holds the architectures whose state belongs to it. The progress
    line of the tick lists the buckets that are not empty, in the order
    stopped, building, uploading, succeeded, pending, each with its
    architectures in sorted order. *)
Theorem classification_partitions_snapshot (states : MonitoringSnapshot) :
  NoDup (map fst states) ->
  let b := classify states in
  (forall arch, In arch (map fst states) -> exists! k, In arch (members k b))
  /\ (forall k arch, In arch (members k b) -> In arch (map fst states))
  /\ (forall k arch, In arch (members k b)
                     <-> exists st, In (arch, st) states /\ bucket_of st = k)
  /\ (forall k, NoDup (members k b))
  /\ progress_line states
     = Py.join "; "
         (map (fun k => bucket_label k
                          +++ Py.join (bucket_separator k) (Py.sorted (members k b)))
              (filter (fun k => Py.truthy_list (members k b)) bucket_order))
  /\ (forall k, Sorted PyFacts.str_le (Py.sorted (members k b))
                /\ Permutation (members k b) (Py.sorted (members k b)))
  /\ monitor_ticks [states] [] = ([emit_progress (progress_line states) false], Ok states).
Proof.
  intros Hnd b. subst b.
  split; [|split; [|split; [|split; [|split; [|split]]]]].
  - intros arch Hin. apply in_map_iff in Hin as ([a st] & Ha & Hin).
    cbn in Ha. subst a. exists (bucket_of st). split.
    + apply ClassifyFacts.classify_members. now exists st.
    + intros k Hk. apply ClassifyFacts.classify_members in Hk as (st' & Hin' & <-).
      now rewrite (ClassifyFacts.one_state states arch st st' Hnd Hin Hin').
  - intros k arch Hk. apply ClassifyFacts.classify_members in Hk as (st & Hin & _).
    now apply (in_map fst states (arch, st)).
  - intros k arch. apply ClassifyFacts.classify_members.
  - apply ClassifyFacts.fold_NoDup. intros []; constructor.
  - unfold progress_line. now rewrite ClassifyFacts.progress_parts_eq.
  - intros k. split; [apply PyFacts.sorted_Sorted|apply PyFacts.sorted_perm].
  - reflexivity.
Qed.

(** ** Architecture resolution *)

Module ResolveFacts.

Lemma filter_build_fors_started (lib : Library) (self : Command)
      (build_fors archs : list string) :
  archs <> [] ->
  filter_build_fors lib self build_fors archs
  = Ok (archs ++ accumulated lib (build_plan self) build_fors).
Proof.
  revert archs. induction build_fors as [|entry rest IH]; intros archs Hne.
  - cbn. now rewrite app_nil_r.
  - cbn [filter_build_fors accumulated flat_map].
    fold (selected lib (build_plan self) entry).
    destruct (archs ++ selected lib (build_plan self) entry) as [|a l] eqn:E.
    + apply app_eq_nil in E as [-> _]. contradiction.
    + cbn [Py.truthy_list negb]. rewrite IH by discriminate.
      now rewrite <- E, <- app_assoc.
Qed.

(** The loop fails exactly when its first entry selects nothing. *)
Lemma filter_build_fors_first (lib : Library) (self : Command)
      (entry : string) (rest : list string) :
  filter_build_fors lib self (entry :: rest) []
  = if Py.truthy_list (selected lib (build_plan self) entry)
    then Ok (accumulated lib (build_plan self) (entry :: rest))
    else Raise EmptyBuildPlanError.
Proof.
  cbn [filter_build_fors accumulated flat_map app].
  fold (selected lib (build_plan self) entry).
  destruct (selected lib (build_plan self) entry) as [|a l] eqn:E; [reflexivity|].
  cbn [Py.truthy_list negb]. now rewrite filter_build_fors_started by discriminate.
Qed.

End ResolveFacts.

(** C3, as the code has it. A project that declares platforms or
    architectures gets the build-for values of its plan, in plan order, when
    there is no override list; with an override list whose first entry
    selects some target it gets the accumulated selections, and when no entry
    selects anything resolution fails with EmptyBuildPlanError. A project
    that declares none gets a non-empty override list verbatim, and the
    host architecture alone when there is no override list either. *)
Theorem architecture_resolution_modes
        (lib : Library) (self : Command) (build_fors : option (list string)) :
  let plan := build_plan self in
  let overrides := Py.or_empty build_fors in
  (declares_architectures (cmd_project self) = true ->
   (overrides = [] -> _get_archs lib self build_fors = Ok (build_fors_of plan))
   /\ (forall entry rest,
          overrides = entry :: rest ->
          (selected lib plan entry <> [] ->
           _get_archs lib self build_fors = Ok (accumulated lib plan overrides))
          /\ (accumulated lib plan overrides = [] ->
              _get_archs lib self build_fors = Raise EmptyBuildPlanError)))
  /\ (declares_architectures (cmd_project self) = false ->
      (overrides <> [] -> _get_archs lib self build_fors = Ok overrides)
      /\ (overrides = [] -> _get_archs lib self build_fors = Ok [from_host lib])).
Proof.
  intros plan overrides. subst plan overrides. unfold _get_archs. split; intros ->.
  - split.
    + now intros ->.
    + intros entry rest ->. cbn [Py.truthy_list].
      rewrite ResolveFacts.filter_build_fors_first. split.
      * destruct (selected lib (build_plan self) entry); [contradiction|reflexivity].
      * cbn [accumulated flat_map]. intros [-> _]%app_eq_nil. reflexivity.
  - split.
    + destruct (Py.or_empty build_fors); [contradiction|reflexivity].
    + now intros ->.
Qed.

(** ** Plan validation *)

Module ValidateFacts.

(** [build_map.get(k)] *)
Fixpoint lookup (m : list (string * list string)) (k : string) : option (list string) :=
  match m with
  | [] => None
  | (k', vs) :: rest => if String.eqb k' k then Some vs else lookup rest k
  end.

Lemma lookup_setdefault (m : list (string * list string)) (k v k' : string) :
  lookup (setdefault_append m k v) k'
  = if String.eqb k k' then Some (Py.or_empty (lookup m k) ++ [v]) else lookup m k'.
Proof.
  induction m as [|[k0 vs] m IH]; cbn [setdefault_append lookup Py.or_empty].
  - now destruct (String.eqb_spec k k').
  - destruct (String.eqb_spec k0 k) as [->|Hk0]; cbn [lookup].
    + destruct (String.eqb_spec k k'); reflexivity.
    + rewrite IH. destruct (String.eqb_spec k0 k') as [->|]; [|reflexivity].
      destruct (String.eqb_spec k k'); [congruence|reflexivity].
Qed.

Lemma keys_setdefault (m : list (string * list string)) (k v : string) :
  map fst (setdefault_append m k v)
  = if in_dec string_dec k (map fst m) then map fst m else map fst m ++ [k].
Proof.
  induction m as [|[k0 vs] m IH]; cbn [setdefault_append map fst app]; [reflexivity|].
  destruct (String.eqb_spec k0 k) as [->|Hk0]; cbn [map fst].
  - destruct (in_dec string_dec k (k :: map fst m)) as [|Hn]; [reflexivity|].
    exfalso. apply Hn. now left.
  - rewrite IH.
    destruct (in_dec string_dec k (map fst m)) as [Hin|Hn];
      destruct (in_dec string_dec k (k0 :: map fst m)) as [Hin'|Hn'];
      try reflexivity.
    + exfalso. apply Hn'. now right.
    + destruct Hin' as [?|?]; [congruence|contradiction].
Qed.

Lemma NoDup_setdefault (m : list (string * list string)) (k v : string) :
  NoDup (map fst m) -> NoDup (map fst (setdefault_append m k v)).
Proof.
  intros Hm. rewrite keys_setdefault.
  destruct (in_dec string_dec k (map fst m)) as [|Hn]; [exact Hm|].
  apply NoDup_app; [exact Hm|repeat constructor; cbn; tauto|].
  intros a Ha [<-|[]]. contradiction.
Qed.

Lemma lookup_In (m : list (string * list string)) (k : string) (vs : list string) :
  NoDup (map fst m) -> (In (k, vs) m <-> lookup m k = Some vs).
Proof.
  induction m as [|[k0 vs0] m IH]; cbn [map fst lookup In]; intros Hnd.
  - split; [tauto|discriminate].
  - inversion Hnd as [|? ? Hnot Hnd']; subst.
    destruct (String.eqb_spec k0 k) as [->|Hk0].
    + split.
      * intros [H|H]; [congruence|].
        exfalso. apply Hnot. now apply (in_map fst m (k, vs)).
      * intros [= ->]. now left.
    + rewrite <- (IH Hnd'). split; [|tauto].
      intros [H|H]; [congruence|exact H].
Qed.

Definition fold_build_map (m : list (string * list string)) (plan : list BuildInfo) :=
  fold_left (fun m build_info =>
               setdefault_append m (build_on build_info) (build_for build_info))
            plan m.

Lemma lookup_fold (plan : list BuildInfo) (m : list (string * list string))
      (k : string) :
  lookup (fold_build_map m plan) k
  = match lookup m k, build_fors_on plan k with
    | None, [] => None
    | found, fors => Some (Py.or_empty found ++ fors)
    end.
Proof.
  revert m. induction plan as [|info plan IH]; intros m.
  - cbn. destruct (lookup m k); cbn; now rewrite ?app_nil_r.
  - cbn [fold_build_map fold_left]. fold (fold_build_map
      (setdefault_append m (build_on info) (build_for info)) plan).
    rewrite IH, lookup_setdefault.
    unfold build_fors_on, build_fors_of. cbn [filter].
    destruct (String.eqb_spec (build_on info) k) as [->|Hk]; cbn [map].
    + destruct (lookup m k); cbn [Py.or_empty];
        now rewrite <- ?app_assoc.
    + reflexivity.
Qed.

Lemma NoDup_fold (plan : list BuildInfo) (m : list (string * list string)) :
  NoDup (map fst m) -> NoDup (map fst (fold_build_map m plan)).
Proof.
  revert m. induction plan as [|info plan IH]; intros m Hm; [exact Hm|].
  cbn [fold_build_map fold_left]. apply IH. now apply NoDup_setdefault.
Qed.

(** The entries of the build map: every build-on of the plan with the
    build-for values it is paired with, in plan order. *)
Lemma build_map_entries (plan : list BuildInfo) (on : string) (fors : list string) :
  In (on, fors) (build_map_of plan)
  <-> fors = build_fors_on plan on /\ fors <> [].
Proof.
  change (build_map_of plan) with (fold_build_map [] plan).
  rewrite lookup_In by (apply NoDup_fold; constructor).
  rewrite lookup_fold. cbn [lookup Py.or_empty app].
  destruct (build_fors_on plan on) as [|f l].
  - split; [discriminate|]. now intros [-> ?].
  - split; [intros [= <-]; split; [reflexivity|discriminate]|].
    now intros [-> _].
Qed.

Lemma join_contains (x : string) (l : list string) :
  In x l -> Py.contains x (Py.join EmptyString l).
Proof.
  unfold Py.join. induction l as [|y l IH]; [intros []|].
  intros [->|Hin].
  - destruct l as [|z l]; cbn [String.concat]; [apply PyFacts.contains_refl|].
    exists EmptyString, (String.concat EmptyString (z :: l)). reflexivity.
  - destruct l as [|z l]; [destruct Hin|].
    cbn [String.concat]. apply PyFacts.contains_append_l.
    cbn [String.append]. now apply IH.
Qed.

End ValidateFacts.

(** C5, as the code has it. Validation fails, with one RemoteBuildError of
    return code [os.EX_CONFIG], exactly when some build-on occurs in more
    than one entry of the plan; a build-on paired with two different
    build-for values is such a case. The one message holds, for every such
    build-on, the line that names it and all the build-for values it is
    paired with. *)
Theorem validation_one_artifact_per_build_on (lib : Library) (self : Command) :
  let plan := build_plan self in
  let v := _validate_single_artifact_per_build_on lib self in
  let shared on := 1 < List.length (build_fors_on plan on) in
  trace v = []
  /\ ((exists on, shared on) ->
      exists message resolution,
        outcome v = Raise (RemoteBuildError message None resolution
                                            doc_slug_remote_build true EX_CONFIG)
        /\ forall on,
            shared on ->
            Py.contains
              (Py.nl +++ "  - Building on " +++ Py.repr on
                 +++ " will create snaps for "
                 +++ humanize_list lib (build_fors_on plan on) "and" +++ ".")
              message)
  /\ ((forall on, ~ shared on) -> outcome v = Ok tt)
  /\ (distinct_build_fors_conflict plan -> exists on, shared on)
  /\ EX_CONFIG = 78%Z.
Proof.
  intros plan v shared. subst v shared.
  unfold _validate_single_artifact_per_build_on. fold plan.
  assert (Hline : forall on,
             1 < List.length (build_fors_on plan on) ->
             In (Py.nl +++ "  - Building on " +++ Py.repr on
                   +++ " will create snaps for "
                   +++ humanize_list lib (build_fors_on plan on) "and" +++ ".")
                (build_on_errors_of lib (build_map_of plan))).
  { intros on Hon. unfold build_on_errors_of. apply in_flat_map.
    exists (on, build_fors_on plan on). split.
    - apply ValidateFacts.build_map_entries. split; [reflexivity|].
      intros E. rewrite E in Hon. cbn in Hon. lia.
    - cbn [build_on_error]. apply Nat.ltb_lt in Hon. rewrite Hon. now left. }
  split; [now destruct (Py.truthy_list _)|]. split; [|split; [|split]].
  - intros [on0 Hon0].
    pose proof (Hline on0 Hon0) as Hin0.
    destruct (build_on_errors_of lib (build_map_of plan)) as [|l0 ls] eqn:E;
      [destruct Hin0|].
    cbn [Py.truthy_list raise outcome snd]. eexists _, _. split; [reflexivity|].
    intros on Hon.
    apply (PyFacts.contains_append_l _ _
             "Remote build does not support building multiple snaps on the ").
    apply (PyFacts.contains_append_l _ _ "same architecture:").
    apply ValidateFacts.join_contains. now apply Hline.
  - intros Hnone.
    destruct (build_on_errors_of lib (build_map_of plan)) as [|l0 ls] eqn:E;
      [reflexivity|].
    exfalso.
    assert (Hin : In l0 (build_on_errors_of lib (build_map_of plan)))
      by (rewrite E; now left).
    unfold build_on_errors_of in Hin. apply in_flat_map in Hin as ([on fors] & Hm & Hl).
    apply ValidateFacts.build_map_entries in Hm as [-> _].
    cbn [build_on_error] in Hl.
    destruct (Nat.ltb_spec 1 (List.length (build_fors_on plan on))) as [Hlt|];
      [exact (Hnone on Hlt)|destruct Hl].
  - intros (on & for1 & for2 & H1 & H2 & Hne). exists on.
    destruct (build_fors_on plan on) as [|a [|b l]]; cbn in *; try lia; try tauto.
    destruct H1 as [<-|[]], H2 as [<-|[]]. congruence.
  - reflexivity.
Qed.

(** C4, the code at an override list whose first entry selects nothing. The
    plan declares amd64 only. With the overrides arm64, amd64 the whole list
    selects amd64, yet resolution fails with EmptyBuildPlanError; with the
    same entries in the other order it returns amd64. In general the loop
    fails exactly when the first entry selects nothing, whatever the later
    entries select. *)
Theorem empty_plan_check_depends_on_order :
  accumulated Example.lib (build_plan Example.one_target) ["arm64"; "amd64"] = ["amd64"]
  /\ _get_archs Example.lib Example.one_target (Some ["arm64"; "amd64"])
     = Raise EmptyBuildPlanError
  /\ _get_archs Example.lib Example.one_target (Some ["amd64"; "arm64"])
     = Ok ["amd64"]
  /\ forall lib self entry rest,
      declares_architectures (cmd_project self) = true ->
      _get_archs lib self (Some (entry :: rest))
      = if Py.truthy_list (selected lib (build_plan self) entry)
        then Ok (accumulated lib (build_plan self) (entry :: rest))
        else Raise EmptyBuildPlanError.
Proof.
  split; [reflexivity|]. split; [reflexivity|]. split; [reflexivity|].
  intros lib self entry rest Hd. unfold _get_archs. rewrite Hd.
  cbn [Py.or_empty Py.truthy_list]. apply ResolveFacts.filter_build_fors_first.
Qed.

(** ** The properties on examples *)

(** C1 on the scenario of the spec: a timeout after two ticks of the session
    abc123. *)
Lemma timeout_defers_cleanup_witness :
  outcome (_run Example.lib Example.timing_out Example.one_target
                (Example.args false None)) = Ok 75%Z
  /\ calls is_cleanup
           (trace (_run Example.lib Example.timing_out Example.one_target
                        (Example.args false None))) = 0
  /\ Py.contains "--recover --build-id=abc123"
                 (timeout_message Example.one_target (Some "abc123")).
Proof.
  destruct (timeout_defers_cleanup
              Example.lib Example.timing_out Example.one_target
              (Example.args false None) _ _ _ _ _ _ _ eq_refl eq_refl eq_refl)
    as (Ho & _ & Hc & _ & _ & Hid).
  split; [exact Ho|]. split; [exact Hc|].
  exact (proj2 (Hid eq_refl) eq_refl).
Defined.

(** C2 on the scenario of the spec: [start_builds] meets a conflict. *)
Lemma conflict_cleans_up_and_returns_tempfail_witness :
  calls is_cleanup
        (trace (_run Example.lib Example.conflicting Example.one_target
                     (Example.args false None))) = 1
  /\ outcome (_run Example.lib Example.conflicting Example.one_target
                   (Example.args false None)) = Ok 75%Z.
Proof.
  destruct (conflict_cleans_up_and_returns_tempfail
              Example.lib Example.conflicting Example.one_target
              (Example.args false None) _ _ _ _ eq_refl eq_refl eq_refl)
    as (Hc & _ & Ho & _).
  split; [exact Hc|exact (Ho eq_refl)].
Defined.

(** C3 fails where no override entry selects a target: the plan declares
    amd64, the override asks for arm64, the accumulated selections are the
    empty list, and resolution raises instead of returning it. *)
Lemma architecture_resolution_counterexample :
  declares_architectures (cmd_project Example.one_target) = true
  /\ accumulated Example.lib (build_plan Example.one_target) ["arm64"] = []
  /\ _get_archs Example.lib Example.one_target (Some ["arm64"])
     = Raise EmptyBuildPlanError
  /\ _get_archs Example.lib Example.one_target (Some ["arm64"])
     <> Ok (accumulated Example.lib (build_plan Example.one_target) ["arm64"]).
Proof.
  repeat split; discriminate.
Qed.

(** C5 fails on a plan with two platforms that build amd64 on amd64: no
    build-on is paired with two different build-for values, yet validation
    raises. *)
Lemma validation_one_artifact_per_build_on_counterexample :
  ~ distinct_build_fors_conflict Example.twin_plan
  /\ exists message resolution,
      outcome (_validate_single_artifact_per_build_on
                 Example.lib (Example.declared Example.twin_plan))
      = Raise (RemoteBuildError message None resolution
                                doc_slug_remote_build true EX_CONFIG).
Proof.
  split.
  - intros (on & for1 & for2 & H1 & H2 & Hne). apply Hne.
    unfold build_fors_on, build_fors_of, Example.twin_plan in H1, H2.
    cbn [filter build_on build_for] in H1, H2.
    destruct (String.eqb "amd64" on); cbn in H1, H2; [|destruct H1].
    destruct H1 as [<-|[<-|[]]], H2 as [<-|[<-|[]]]; reflexivity.
  - eexists _, _. reflexivity.
Qed.

(** C6 fails on an exception of another class: [start_builds] raises a
    ValueError, which leaves [_run] without [cleanup] having been called. *)
Lemma start_failure_cleanup_counterexample :
  start_builds Example.already_started
  = Raise (OtherException "ValueError" "Cannot start builds if already running builds")
  /\ calls is_cleanup
           (trace (_run Example.lib Example.already_started Example.one_target
                        (Example.args false None))) = 0
  /\ outcome (_run Example.lib Example.already_started Example.one_target
                   (Example.args false None))
     = Raise (OtherException "ValueError"
                             "Cannot start builds if already running builds").
Proof.
  repeat split.
Qed.

(** C6, as the code has it, on a LaunchpadError. *)
Lemma start_failure_cleanup_by_class_witness :
  calls is_cleanup
        (trace (_run Example.lib Example.rejected Example.one_target
                     (Example.args false None))) = 1
  /\ outcome (_run Example.lib Example.rejected Example.one_target
                   (Example.args false None))
     = Raise (LaunchpadError "upload failed").
Proof.
  destruct (start_failure_cleanup_by_class
              Example.lib Example.rejected Example.one_target
              (Example.args false None) _ _ _ _ eq_refl eq_refl eq_refl
              ltac:(discriminate))
    as [H _].
  destruct (H eq_refl) as (Hc & _ & Ho).
  split; [exact Hc|exact (Ho eq_refl)].
Defined.

(** C7 on the scenario of the spec: one build that succeeds, with its log and
    its artifact. *)
Lemma completion_return_code_witness :
  calls is_fetch_logs
        (trace (_monitor_and_complete Example.calm Example.one_target
                                      (Some "abc123") ["amd64"])) = 1
  /\ calls is_fetch_artifacts
           (trace (_monitor_and_complete Example.calm Example.one_target
                                         (Some "abc123") ["amd64"])) = 1
  /\ exists return_code,
      outcome (_monitor_and_complete Example.calm Example.one_target
                                     (Some "abc123") ["amd64"]) = Ok return_code
      /\ (return_code = 0%Z \/ return_code = 1%Z).
Proof.
  destruct (completion_return_code
              Example.calm Example.one_target (Some "abc123") ["amd64"]
              _ _ _ eq_refl eq_refl eq_refl)
    as (Hl & Ha & rc & Ho & Hrc & _).
  split; [exact Hl|]. split; [exact Ha|]. exists rc. split; [exact Ho|exact Hrc].
Defined.

(** C8 on a snapshot with a failed, a running and a pending build. *)
Lemma classification_partitions_snapshot_witness :
  (forall arch, In arch (map fst Example.mixed_snapshot) ->
                exists! k, In arch (members k (classify Example.mixed_snapshot)))
  /\ progress_line Example.mixed_snapshot
     = "Stopped: s390x; Building: amd64; Pending: arm64".
Proof.
  assert (Hnd : NoDup (map fst Example.mixed_snapshot)).
  { repeat constructor; cbn; intuition discriminate. }
  destruct (classification_partitions_snapshot Example.mixed_snapshot Hnd)
    as (Hone & _).
  split; [exact Hone|reflexivity].
Defined.

(** C9 on an interrupt during the first tick, confirmed and declined. *)
Lemma interrupt_cancel_or_leave_witness :
  (calls is_cancel_builds
         (trace (_run Example.lib (Example.interrupted true) Example.one_target
                      (Example.args false None))) = 1
   /\ calls is_cleanup
            (trace (_run Example.lib (Example.interrupted true) Example.one_target
                         (Example.args false None))) = 1
   /\ outcome (_run Example.lib (Example.interrupted true) Example.one_target
                    (Example.args false None)) = Ok 0%Z)
  /\ (calls is_cancel_builds
            (trace (_run Example.lib (Example.interrupted false) Example.one_target
                         (Example.args false None))) = 0
      /\ calls is_cleanup
               (trace (_run Example.lib (Example.interrupted false)
                            Example.one_target (Example.args false None))) = 0
      /\ outcome (_run Example.lib (Example.interrupted false) Example.one_target
                       (Example.args false None)) = Ok 0%Z).
Proof.
  destruct (interrupt_cancel_or_leave
              Example.lib (Example.interrupted true) Example.one_target
              (Example.args false None) _ _ _ _ _ _ eq_refl eq_refl eq_refl)
    as (_ & Hyes & _).
  destruct (interrupt_cancel_or_leave
              Example.lib (Example.interrupted false) Example.one_target
              (Example.args false None) _ _ _ _ _ _ eq_refl eq_refl eq_refl)
    as (_ & _ & Hno & _).
  split.
  - destruct (Hyes eq_refl) as (Hk & Hrest & _).
    destruct (Hrest eq_refl) as (Hc & _ & Ho & _).
    split; [exact Hk|]. split; [exact Hc|exact (Ho eq_refl)].
  - exact (Hno eq_refl).
Defined.

(** C9 as stated fails when the farm refuses to cancel: the operator has
    confirmed, [cancel_builds] is called and raises, [cleanup] is never
    called and the run ends with that exception instead of the exit code
    0. *)
Lemma interrupt_cleanup_counterexample :
  confirm_with_user Example.cancel_fails "Cancel builds?" true = Ok true
  /\ calls is_cancel_builds
           (trace (_run Example.lib Example.cancel_fails Example.one_target
                        (Example.args false None))) = 1
  /\ calls is_cleanup
           (trace (_run Example.lib Example.cancel_fails Example.one_target
                        (Example.args false None))) = 0
  /\ outcome (_run Example.lib Example.cancel_fails Example.one_target
                   (Example.args false None))
     = Raise (LaunchpadError "cancel failed").
Proof.
  repeat split.
Qed.

(** C10 on a resume that fails. *)
Lemma recover_resumes_and_propagates_witness :
  calls is_start_builds
        (trace (_run Example.lib Example.nothing_to_resume Example.one_target
                     (Example.args true None))) = 0
  /\ outcome (_run Example.lib Example.nothing_to_resume Example.one_target
                   (Example.args true None))
     = Raise (LaunchpadError "no such session")
  /\ calls is_cleanup
           (trace (_run Example.lib Example.nothing_to_resume Example.one_target
                        (Example.args true None))) = 0.
Proof.
  destruct (recover_resumes_and_propagates
              Example.lib Example.nothing_to_resume Example.one_target
              (Example.args true None) eq_refl)
    as (Hs & Hrest).
  destruct (Hrest _ _ _ eq_refl) as (_ & Hraise).
  destruct (Hraise _ eq_refl) as (Ho & _ & _ & Hc).
  split; [exact Hs|]. split; [exact Ho|exact Hc].
Defined.

(** ** The command line and the checks before submission *)

Module ParserFacts.

Import Parser.

Lemma split_nonempty (sep : ascii) (s : string) : split sep s <> [].
Proof.
  destruct s as [|c s]; cbn [split]; [discriminate|].
  destruct (Ascii.eqb c sep); [discriminate|].
  destruct (split sep s); discriminate.
Qed.

Lemma count_char_cons (sep c : ascii) (s : string) :
  count_char sep (String c s)
  = (if Ascii.eqb c sep then 1 else 0) + count_char sep s.
Proof.
  unfold count_char. cbn [list_ascii_of_string filter].
  rewrite (Ascii.eqb_sym sep c). now destruct (Ascii.eqb c sep).
Qed.

Lemma split_length (sep : ascii) (s : string) :
  List.length (split sep s) = S (count_char sep s).
Proof.
  induction s as [|c s IH]; [reflexivity|].
  rewrite count_char_cons. cbn [split].
  destruct (Ascii.eqb c sep); cbn [List.length]; [now rewrite IH|].
  destruct (split sep s) as [|x xs]; [discriminate IH|exact IH].
Qed.

Lemma split_join (sep : ascii) (s : string) :
  Py.join (String sep EmptyString) (split sep s) = s.
Proof.
  unfold Py.join. induction s as [|c s IH]; [reflexivity|].
  pose proof (split_nonempty sep s) as Hne.
  cbn [split]. destruct (Ascii.eqb_spec c sep) as [->|Hc].
  - destruct (split sep s) as [|x xs]; [contradiction|].
    cbn [String.concat String.append] in *. now rewrite IH.
  - destruct (split sep s) as [|x xs]; [contradiction|].
    destruct xs as [|y ys]; cbn [String.concat String.append] in *; now rewrite IH.
Qed.

Lemma split_pieces (sep : ascii) (s x : string) (P : ascii -> Prop) :
  (forall c, In c (list_ascii_of_string s) -> P c) ->
  In x (split sep s) ->
  forall c, In c (list_ascii_of_string x) -> P c /\ c <> sep.
Proof.
  revert x. induction s as [|c0 s IH]; intros x Hs; cbn [split].
  - intros [<-|[]] c [].
  - assert (Hs' : forall c, In c (list_ascii_of_string s) -> P c)
      by (intros c Hc; apply Hs; now right).
    destruct (Ascii.eqb_spec c0 sep) as [->|Hc0].
    + intros [<-|Hin]; [intros c []|now apply IH].
    + destruct (split sep s) as [|y ys] eqn:E; [intros [<-|[]]|intros [<-|Hin]].
      * intros c [<-|[]]. split; [apply Hs; now left|exact Hc0].
      * intros c [<-|Hc]; [split; [apply Hs; now left|exact Hc0]|].
        apply (IH y Hs'); [now left|exact Hc].
      * apply (IH x Hs'). now right.
Qed.

Lemma lstrip_chars (s : string) (c : ascii) :
  In c (list_ascii_of_string (lstrip s)) -> In c (list_ascii_of_string s).
Proof.
  induction s as [|d s IH]; [auto|]. cbn [lstrip].
  destruct (isspace d); [intros H; right; now apply IH|auto].
Qed.

Lemma rstrip_chars (s : string) (c : ascii) :
  In c (list_ascii_of_string (rstrip s)) -> In c (list_ascii_of_string s).
Proof.
  induction s as [|d s IH]; [auto|]. cbn [rstrip].
  destruct (rstrip s) as [|e r].
  - destruct (isspace d); [intros []|intros [<-|[]]; now left].
  - intros [<-|H]; [now left|right; now apply IH].
Qed.

Lemma lstrip_head (s : string) :
  lstrip s = EmptyString
  \/ exists c r, lstrip s = String c r /\ isspace c = false.
Proof.
  induction s as [|d s IH]; [now left|]. cbn [lstrip].
  destruct (isspace d) eqn:E; [exact IH|]. right. now exists d, s.
Qed.

Lemma rstrip_cons (c : ascii) (s : string) :
  rstrip (String c s)
  = match rstrip s with
    | EmptyString => if isspace c then EmptyString else String c EmptyString
    | r => String c r
    end.
Proof. reflexivity. Qed.

Lemma rstrip_idem (s : string) : rstrip (rstrip s) = rstrip s.
Proof.
  induction s as [|c s IH]; [reflexivity|]. rewrite rstrip_cons.
  destruct (rstrip s) as [|d r] eqn:E.
  - destruct (isspace c) eqn:Ec; [reflexivity|]. rewrite rstrip_cons.
    cbn [rstrip]. now rewrite Ec.
  - now rewrite rstrip_cons, IH.
Qed.

Lemma rstrip_keeps_head (c : ascii) (s : string) :
  isspace c = false -> exists r, rstrip (String c s) = String c r.
Proof.
  intros Hc. cbn [rstrip]. destruct (rstrip s) as [|d r].
  - rewrite Hc. now exists EmptyString.
  - now exists (String d r).
Qed.

Lemma strip_idem (s : string) : strip (strip s) = strip s.
Proof.
  unfold strip. destruct (lstrip_head s) as [->|(c & r & -> & Hc)]; [reflexivity|].
  destruct (rstrip_keeps_head c r Hc) as [r' E]. rewrite E.
  cbn [lstrip]. rewrite Hc, <- E. apply rstrip_idem.
Qed.

Lemma strip_without_space (s : string) :
  (forall c, In c (list_ascii_of_string s) -> isspace c = false) -> strip s = s.
Proof.
  intros Hs. unfold strip.
  assert (Hl : lstrip s = s).
  { destruct s as [|c s]; [reflexivity|]. cbn [lstrip].
    now rewrite (Hs c (or_introl eq_refl)). }
  rewrite Hl. clear Hl.
  induction s as [|c s IH]; [reflexivity|]. cbn [rstrip].
  rewrite IH by (intros d Hd; apply Hs; now right).
  destruct s; [|reflexivity]. now rewrite (Hs c (or_introl eq_refl)).
Qed.

Lemma lstrip_padded (s : string) :
  exists pre, s = pre +++ lstrip s /\ blank pre = true.
Proof.
  induction s as [|d s (pre & E & Hb)]; [now exists EmptyString|]. cbn [lstrip].
  destruct (isspace d) eqn:Ed; [|now exists EmptyString].
  exists (String d pre). cbn [String.append]. split; [now rewrite <- E|].
  unfold blank in *. cbn [list_ascii_of_string forallb]. now rewrite Ed.
Qed.

Lemma rstrip_padded (s : string) :
  exists post, s = rstrip s +++ post /\ blank post = true.
Proof.
  induction s as [|c s (post & E & Hb)]; [now exists EmptyString|].
  rewrite rstrip_cons. destruct (rstrip s) as [|d r].
  - cbn [String.append] in E. subst post. destruct (isspace c) eqn:Ec.
    + exists (String c s). split; [reflexivity|].
      unfold blank in *. cbn [list_ascii_of_string forallb]. now rewrite Ec.
    + now exists s.
  - exists post. split; [|exact Hb]. cbn [String.append] in *. now rewrite <- E.
Qed.

Lemma strip_padded (s : string) : padded s (strip s).
Proof.
  destruct (lstrip_padded s) as (pre & E1 & H1).
  destruct (rstrip_padded (lstrip s)) as (post & E2 & H2).
  exists pre, post. fold (strip s) in E2. now rewrite <- E2.
Qed.

Lemma strip_first (s : string) (c : ascii) :
  first_char (strip s) = Some c -> isspace c = false.
Proof.
  unfold strip. destruct (lstrip_head s) as [->|(c0 & r & -> & Hc)]; [discriminate|].
  destruct (rstrip_keeps_head c0 r Hc) as [r' ->]. now intros [= <-].
Qed.

Lemma rstrip_last (s : string) (c : ascii) :
  last_char (rstrip s) = Some c -> isspace c = false.
Proof.
  induction s as [|c0 s IH]; [discriminate|]. rewrite rstrip_cons.
  destruct (rstrip s) as [|d r].
  - destruct (isspace c0) eqn:E; [discriminate|]. now intros [= <-].
  - exact IH.
Qed.

Lemma strip_all_padded (pieces : list string) :
  Forall2 padded pieces (map strip pieces).
Proof.
  induction pieces as [|piece pieces IH]; constructor; [apply strip_padded|exact IH].
Qed.

End ParserFacts.

(** The value of [--build-for]: one entry more than the argument has commas
    (so never an empty list); no entry holds a comma; no entry starts or
    ends with a white-space character, so stripping it again changes
    nothing; an argument without white space is recovered by joining the
    entries with commas; and in general the argument is the comma-join of
    pieces that are the entries, in order, with white space and nothing else
    around them. *)
Theorem build_for_option_parsing (arg : string) :
  Parser.build_for_type arg <> []
  /\ List.length (Parser.build_for_type arg) = S (Parser.count_char Parser.comma arg)
  /\ (forall entry, In entry (Parser.build_for_type arg) ->
                    Parser.count_char Parser.comma entry = 0
                    /\ Parser.strip entry = entry
                    /\ (forall c, Parser.first_char entry = Some c ->
                                  Parser.isspace c = false)
                    /\ (forall c, Parser.last_char entry = Some c ->
                                  Parser.isspace c = false))
  /\ ((forall c, In c (list_ascii_of_string arg) -> Parser.isspace c = false) ->
      Py.join "," (Parser.build_for_type arg) = arg)
  /\ (exists pieces,
         Py.join "," pieces = arg
         /\ Forall2 Parser.padded pieces (Parser.build_for_type arg)).
Proof.
  unfold Parser.build_for_type. split; [|split; [|split; [|split]]];
    [| | | |exists (Parser.split Parser.comma arg);
            split; [apply (ParserFacts.split_join Parser.comma)
                   |apply ParserFacts.strip_all_padded]].
  - pose proof (ParserFacts.split_nonempty Parser.comma arg).
    now destruct (Parser.split Parser.comma arg).
  - now rewrite length_map, ParserFacts.split_length.
  - intros entry (piece & <- & Hin)%in_map_iff.
    split; [|split; [apply ParserFacts.strip_idem
                    |split; [apply ParserFacts.strip_first
                            |intros c; apply ParserFacts.rstrip_last]]].
    assert (Hnc : forall c, In c (list_ascii_of_string (Parser.strip piece)) ->
                            c <> Parser.comma).
    { intros c Hc. unfold Parser.strip in Hc.
      apply ParserFacts.rstrip_chars, ParserFacts.lstrip_chars in Hc.
      exact (proj2 (ParserFacts.split_pieces Parser.comma arg piece (fun _ => True)
                      (fun _ _ => I) Hin c Hc)). }
    unfold Parser.count_char.
    induction (list_ascii_of_string (Parser.strip piece)) as [|c l IH]; [reflexivity|].
    cbn [filter]. destruct (Ascii.eqb_spec Parser.comma c) as [E|_].
    + exfalso. apply (Hnc c); [now left|now symmetry].
    + apply IH. intros d Hd. apply Hnc. now right.
  - intros Hs.
    rewrite <- (ParserFacts.split_join Parser.comma arg) at 2. f_equal.
    rewrite <- (map_id (Parser.split Parser.comma arg)) at 2.
    apply map_ext_in. intros piece Hin. apply ParserFacts.strip_without_space.
    intros c Hc.
    exact (proj1 (ParserFacts.split_pieces Parser.comma arg piece
                    (fun c => Parser.isspace c = false) Hs Hin c Hc)).
Qed.

(** The loop of [_validate] over the [--build-for] entries passes exactly
    when every entry is a supported architecture or [all]; otherwise it
    raises, for the first entry that is not, one RemoteBuildError with return
    code [os.EX_CONFIG] whose message quotes that entry. It calls no
    collaborator. *)
Theorem unsupported_build_for_rejected (lib : Library) (build_fors : list string) :
  trace (check_build_fors lib build_fors) = []
  /\ (outcome (check_build_fors lib build_fors) = Ok tt
      <-> forallb (supported_build_for lib) build_fors = true)
  /\ (forall before entry after,
         build_fors = before ++ entry :: after ->
         forallb (supported_build_for lib) before = true ->
         supported_build_for lib entry = false ->
         outcome (check_build_fors lib build_fors)
         = Raise (RemoteBuildError
                    ("Unsupported build-for architecture " +++ Py.repr entry +++ ".")
                    None
                    (Some ("Use a supported debian architecture. Supported "
                             +++ "architectures are: "
                             +++ humanize_list lib (SUPPORTED_ARCHS lib) "and"))
                    doc_slug_remote_build true 78%Z)).
Proof.
  split; [|split].
  - induction build_fors as [|e l IH]; [reflexivity|]. cbn [check_build_fors].
    fold (supported_build_for lib e).
    destruct (supported_build_for lib e); [exact IH|reflexivity].
  - induction build_fors as [|e l IH]; [now split|]. cbn [check_build_fors forallb].
    fold (supported_build_for lib e).
    destruct (supported_build_for lib e); cbn [negb andb]; [exact IH|].
    split; discriminate.
  - intros before entry after -> Hb He. induction before as [|b before IH].
    + change ([] ++ entry :: after) with (entry :: after).
      cbn [check_build_fors]. fold (supported_build_for lib entry).
      now rewrite He.
    + cbn [forallb] in Hb. apply andb_true_iff in Hb as [Hb1 Hb2].
      change ((b :: before) ++ entry :: after)
        with (b :: (before ++ entry :: after)).
      cbn [check_build_fors]. fold (supported_build_for lib b). rewrite Hb1.
      cbn [negb]. exact (IH Hb2).
Qed.

(** Runs [_validate] on the outcomes the hypotheses name and on every
    outcome they leave open. *)
Ltac validate_cases :=
  repeat match goal with
         | H : is_project_private _ = _ |- _ => rewrite H; clear H
         end;
  cbn [when bind emit ret call raise trace outcome fst snd app negb];
  repeat match goal with
         | |- context [is_project_private ?w] =>
             destruct (is_project_private w) as [[|]|?];
             cbn [when bind emit ret call raise trace outcome fst snd app negb]
         end;
  repeat match goal with
         | |- context [confirm_with_user ?w ?p ?d] =>
             destruct (confirm_with_user w p d) as [[|]|?];
             cbn [when bind emit ret call raise trace outcome fst snd app negb]
         end;
  repeat split; intros; try reflexivity; try discriminate.

(** The acknowledgement of the public upload in [_validate]. With
    [--launchpad-accept-public-upload] nobody is asked anything. Without it,
    the privacy of the project is looked up only when [--project] is given,
    and the operator is prompted exactly when no project is given or the
    project is not private. A declined prompt raises a RemoteBuildError that
    is not reportable and has return code [os.EX_NOPERM]; otherwise the
    outcome is that of the remaining checks. *)
Theorem public_upload_acknowledgement
        (lib : Library) (w : World) (self : Command) (parsed_args : Namespace) :
  let v := _validate lib w self parsed_args in
  let checks :=
    (check_build_fors lib (Py.or_empty (remote_build_build_fors parsed_args));;
     _validate_single_artifact_per_build_on lib self) in
  let refusal :=
    RemoteBuildError
      ("Remote build needs explicit acknowledgement that data sent to build servers "
         +++ "is public.")
      (Some ("In non-interactive runs, please use the option "
               +++ "`--launchpad-accept-public-upload`."))
      None doc_slug_remote_build false 77%Z in
  (launchpad_accept_public_upload parsed_args = true ->
   calls is_confirm_with_user (trace v) = 0
   /\ calls is_is_project_private (trace v) = 0
   /\ outcome v = outcome checks)
  /\ (Py.truthy_opt_str (project parsed_args) = false ->
      calls is_is_project_private (trace v) = 0)
  /\ (launchpad_accept_public_upload parsed_args = false ->
      Py.truthy_opt_str (project parsed_args) = true ->
      is_project_private w = Ok true ->
      calls is_confirm_with_user (trace v) = 0 /\ outcome v = outcome checks)
  /\ (launchpad_accept_public_upload parsed_args = false ->
      Py.truthy_opt_str (project parsed_args) = false
      \/ is_project_private w = Ok false ->
      calls is_confirm_with_user (trace v) = 1
      /\ (confirm_with_user w _CONFIRMATION_PROMPT false = Ok true ->
          outcome v = outcome checks)
      /\ (confirm_with_user w _CONFIRMATION_PROMPT false = Ok false ->
          outcome v = Raise refusal)).
Proof.
  intros v checks refusal. subst v refusal.
  assert (Hchecks : checks = ([], outcome checks)).
  { subst checks.
    pose proof (TraceFacts.only_check_build_fors
                  lib (fun _ => false)
                  (Py.or_empty (remote_build_build_fors parsed_args))) as Ht.
    unfold TraceFacts.only in Ht.
    destruct (check_build_fors lib _) as [t [[]|e]]; cbn in Ht;
      (destruct t; [|discriminate Ht]); [|reflexivity].
    pose proof (TraceFacts.only_validate_single lib self (fun _ => false)) as Ho.
    unfold TraceFacts.only in Ho. cbn [bind].
    destruct (_validate_single_artifact_per_build_on lib self) as [t r].
    cbn in Ho |- *. now destruct t. }
  unfold _validate. fold checks. rewrite Hchecks. clear Hchecks.
  generalize (outcome checks). intros r.
  destruct (sudo_as_root w), (launchpad_accept_public_upload parsed_args),
    (Py.truthy_opt_str (project parsed_args));
    (split; [intros H; try discriminate H
            |split; [intros H; try discriminate H
                    |split; [intros H1 H2 H3; try discriminate H1; try discriminate H2
                            |intros H1 [H2|H2]; try discriminate H1;
                             try discriminate H2]]]);
    validate_cases.
Qed.

(** ** Every run, call by call *)

Module CountFacts.

Import TraceFacts RunFacts.

Lemma calls_cons (k : event -> bool) (ev : event) (t : list event) :
  calls k (ev :: t) = (if k ev then 1 else 0) + calls k t.
Proof.
  unfold calls. cbn [filter]. now destruct (k ev).
Qed.

Lemma calls_nil (k : event -> bool) : calls k [] = 0.
Proof. reflexivity. Qed.

(** Replaces the texts of the messages and prompts by variables. *)
Ltac forget_texts :=
  repeat match goal with
         | |- context [emit_progress ?s _] =>
             tryif is_var s then fail else (generalize s; intro)
         | |- context [emit_message ?s] =>
             tryif is_var s then fail else (generalize s; intro)
         | |- context [call_confirm_with_user ?s _] =>
             tryif is_var s then fail else (generalize s; intro)
         end.

(** Splits the count of a trace into the counts of its parts. *)
Ltac count_calls :=
  cbn [trace outcome fst snd];
  forget_texts;
  repeat first [rewrite calls_app | rewrite calls_cons | rewrite calls_nil];
  cbn [is_cleanup is_cancel_builds is_start_builds is_resume_builds
       is_fetch_logs is_fetch_artifacts is_monitor_builds
       is_confirm_with_user is_is_project_private tick failure_report].

(** The kinds of calls a part of the run may hold. *)
Definition counts (t : list event) (start resume monitor logs artifacts cancel clean : nat)
  : Prop :=
  calls is_start_builds t <= start
  /\ calls is_resume_builds t <= resume
  /\ calls is_monitor_builds t <= monitor
  /\ calls is_fetch_logs t <= logs
  /\ calls is_fetch_artifacts t <= artifacts
  /\ calls is_cancel_builds t <= cancel
  /\ calls is_cleanup t <= clean.

Lemma counts_ticks (snaps : list MonitoringSnapshot) :
  counts (map tick snaps) 0 0 0 0 0 0 0.
Proof.
  unfold counts. now rewrite !calls_ticks.
Qed.

Lemma counts_report_failed (items : MonitoringSnapshot) (rc : Z) :
  counts (trace (report_failed items rc)) 0 0 0 0 0 0 0.
Proof.
  unfold counts. now rewrite !calls_report_failed.
Qed.

Lemma counts_setup (t0 : list event) :
  forallb setup_event t0 = true -> counts t0 0 0 0 0 0 0 0.
Proof.
  intros H. unfold counts.
  rewrite !(setup_calls _ t0 H) by (now intros []). now repeat split.
Qed.

(** The monitoring phase in every world: the announcement, the generator,
    one line per snapshot, and then at most one call of each fetch. It
    returns 0, 1 or 75 when it returns. *)
Lemma monitor_and_complete_shape (w : World) (self : Command)
      (build_id : option string) (builds : list Build) :
  let m := _monitor_and_complete w self build_id builds in
  (exists rest,
      trace m = emit_progress "Monitoring build" false :: call_monitor_builds
                  :: map tick (fst (monitor_builds w)) ++ rest
      /\ counts rest 0 0 0 1 1 0 0)
  /\ (forall code, outcome m = Ok code -> code = 0%Z \/ code = 1%Z \/ code = 75%Z).
Proof.
  unfold _monitor_and_complete, monitor_loop.
  destruct (monitor_builds w) as [snaps ending]. cbn [fst snd].
  rewrite monitor_ticks_eq.
  pose proof (report_failed_outcome (last snaps []) 0) as Hrc.
  pose proof (counts_report_failed (last snaps []) 0) as Hrt.
  destruct ending as [e|].
  - destruct e; cbn [bind try_except emit call ret raise trace outcome fst snd app];
      rewrite ?app_nil_r;
      (split; [first [eexists; split; [reflexivity|]
                     |exists []; rewrite app_nil_r; split; [reflexivity|]];
               unfold counts; count_calls; lia
              |intros code [= <-]; auto]).
  - cbn [bind try_except emit call ret raise app].
    destruct (report_failed (last snaps []) 0) as [tf rf].
    cbn [trace outcome fst snd] in Hrc, Hrt. subst rf. unfold counts in Hrt.
    destruct (fetch_logs w) as [logs|el];
      [destruct (fetch_artifacts w) as [artifacts|ea]|];
      try destruct logs; try destruct artifacts;
      destruct (existsb _ (last snaps []));
      cbn [bind try_except emit call ret raise trace outcome fst snd app
           Py.truthy_list negb];
      rewrite ?app_nil_r;
      (split; [eexists; split; [rewrite <- ?app_assoc; reflexivity
                               |unfold counts; count_calls; lia]
              |intros code [= <-]; auto]).
Qed.

Lemma submit_counts (w : World) (self : Command) (args : Namespace)
      (archs : list string) (id : string) :
  let s := _run_submit w self args archs id in
  calls is_start_builds (trace s) + calls is_resume_builds (trace s) = 1
  /\ counts (trace s) 1 1 0 0 0 0 1
  /\ (forall builds, outcome s = Ok (inl builds) -> calls is_cleanup (trace s) = 0)
  /\ (forall code, outcome s = Ok (inr code) -> code = 75%Z).
Proof.
  unfold _run_submit.
  destruct (recover args).
  - destruct (resume_builds w);
      cbn [bind try_except emit call ret raise trace outcome fst snd app];
      unfold counts; count_calls; repeat split; try lia; intros ? [=].
  - destruct (start_builds w) as [b|e];
      [|destruct e; try destruct (cleanup w) as [[]|ec]];
      cbn [bind try_except emit call ret raise trace outcome fst snd app];
      unfold counts; count_calls; repeat split; try lia; intros ? [=]; auto.
Qed.

Lemma run_monitor_counts (w : World) (self : Command) (id : string)
      (builds : list Build) :
  let m := _run_monitor w self id builds in
  counts (trace m) 0 0 1 1 1 1 1
  /\ (forall code, outcome m = Ok code -> code = 0%Z \/ code = 1%Z \/ code = 75%Z)
  /\ (outcome m = Ok 1%Z -> calls is_cleanup (trace m) = 1).
Proof.
  unfold _run_monitor.
  destruct (monitor_and_complete_shape w self (Some id) builds)
    as ((rest & Ht & Hrest) & Hcode).
  pose proof (counts_ticks (fst (monitor_builds w))) as Hticks.
  destruct (_monitor_and_complete w self (Some id) builds) as [tm [rc|e]].
  - cbn [trace outcome fst snd] in Ht, Hcode. subst tm.
    destruct (Hcode rc eq_refl) as [-> | [-> | ->]]; unfold counts in *;
      destruct (cleanup w) as [[]|ec];
      cbn [bind try_except emit call ret raise when trace outcome fst snd app
           Z.eqb Pos.eqb EX_TEMPFAIL negb];
      count_calls; repeat split; try lia;
      try (intros ? [= <-]; auto); try discriminate.
  - cbn [trace outcome fst snd] in Ht. subst tm. unfold counts in *.
    destruct e;
      cbn [bind try_except emit call ret raise when trace outcome fst snd app
           Z.eqb Pos.eqb EX_TEMPFAIL EX_OK negb is_Exception];
      repeat match goal with
             | |- context [confirm_with_user ?w ?p ?d] =>
                 destruct (confirm_with_user w p d) as [[|]|?]
             | |- context [cancel_builds ?w] => destruct (cancel_builds w) as [[]|?]
             | |- context [cleanup ?w] => destruct (cleanup w) as [[]|?]
             | _ =>
                 progress cbn [bind try_except emit call ret raise when trace
                               outcome fst snd app Z.eqb Pos.eqb EX_TEMPFAIL EX_OK
                               negb is_Exception]
             end;
      count_calls; repeat split; try lia;
      try (intros ? [= <-]; auto); try discriminate.
Qed.

End CountFacts.

(** In every run each method of the remote-build service is called at most
    once: [start_builds], [resume_builds] (and never both), [monitor_builds],
    [fetch_logs], [fetch_artifacts], [cancel_builds] and [cleanup]. *)
Theorem collaborators_called_at_most_once
        (lib : Library) (w : World) (self : Command) (parsed_args : Namespace) :
  let t := trace (_run lib w self parsed_args) in
  calls is_start_builds t + calls is_resume_builds t <= 1
  /\ calls is_monitor_builds t <= 1
  /\ calls is_fetch_logs t <= 1
  /\ calls is_fetch_artifacts t <= 1
  /\ calls is_cancel_builds t <= 1
  /\ calls is_cleanup t <= 1.
Proof.
  intros t. subst t. unfold _run.
  pose proof (RunFacts.setup_trace lib w self parsed_args) as H0.
  destruct (_run_setup lib w self parsed_args) as [t0 [[archs id]|e]].
  - specialize (H0 _ _ eq_refl). apply CountFacts.counts_setup in H0.
    destruct (CountFacts.submit_counts w self parsed_args archs id)
      as (Hone & Hs & Hclean & _).
    cbn [bind].
    destruct (_run_submit w self parsed_args archs id) as [t1 [[builds|code]|e]];
      cbn [bind ret].
    + specialize (Hclean builds eq_refl).
      destruct (CountFacts.run_monitor_counts w self id builds) as (Hm & _).
      destruct (_run_monitor w self id builds) as [tm rm].
      unfold CountFacts.counts in *. cbn [trace outcome fst snd] in *.
      rewrite !TraceFacts.calls_app. lia.
    + unfold CountFacts.counts in *. cbn [ret trace outcome fst snd] in *.
      rewrite app_nil_r, !TraceFacts.calls_app. lia.
    + unfold CountFacts.counts in *. cbn [trace outcome fst snd] in *.
      rewrite !TraceFacts.calls_app. lia.
  - specialize (H0 _ _ eq_refl). apply CountFacts.counts_setup in H0.
    unfold CountFacts.counts in *. cbn [bind trace fst]. lia.
Qed.

(** [_run] returns 0, 1 or 75 and nothing else; and whenever it returns 1,
    [cleanup] has been called exactly once. *)
Theorem run_return_codes
        (lib : Library) (w : World) (self : Command) (parsed_args : Namespace)
        (code : Z) :
  outcome (_run lib w self parsed_args) = Ok code ->
  (code = 0%Z \/ code = 1%Z \/ code = 75%Z)
  /\ (code = 1%Z -> calls is_cleanup (trace (_run lib w self parsed_args)) = 1).
Proof.
  unfold _run.
  pose proof (RunFacts.setup_trace lib w self parsed_args) as H0.
  destruct (_run_setup lib w self parsed_args) as [t0 [[archs id]|e]];
    [|discriminate].
  specialize (H0 _ _ eq_refl). apply CountFacts.counts_setup in H0.
  destruct (CountFacts.submit_counts w self parsed_args archs id)
    as (_ & _ & Hclean & Hconflict).
  cbn [bind].
  destruct (_run_submit w self parsed_args archs id) as [t1 [[builds|c]|e]];
    cbn [bind ret]; [| |discriminate].
  - specialize (Hclean builds eq_refl).
    destruct (CountFacts.run_monitor_counts w self id builds) as (_ & Hcode & Hone).
    destruct (_run_monitor w self id builds) as [tm rm].
    cbn [trace outcome fst snd] in *. intros ->. split; [now apply Hcode|].
    intros ->. unfold CountFacts.counts in H0.
    rewrite !TraceFacts.calls_app, Hclean, (Hone eq_refl). lia.
  - cbn [ret trace outcome fst snd]. intros [= <-].
    rewrite (Hconflict c eq_refl). split; [auto|discriminate].
Qed.

(** A run whose setup fails (a validation error, an empty build plan, a
    failing configuration call) raises that exception and has called none of
    [start_builds], [resume_builds], [monitor_builds], the fetches,
    [cancel_builds] and [cleanup]. *)
Theorem setup_failure_stops_before_submission
        (lib : Library) (w : World) (self : Command) (parsed_args : Namespace)
        (t0 : list event) (e : exn) :
  _run_setup lib w self parsed_args = (t0, Raise e) ->
  let r := _run lib w self parsed_args in
  r = (t0, Raise e)
  /\ calls is_start_builds t0 = 0
  /\ calls is_resume_builds t0 = 0
  /\ calls is_monitor_builds t0 = 0
  /\ calls is_fetch_logs t0 = 0
  /\ calls is_fetch_artifacts t0 = 0
  /\ calls is_cancel_builds t0 = 0
  /\ calls is_cleanup t0 = 0.
Proof.
  intros H r. subst r.
  pose proof (CountFacts.counts_setup t0 (RunFacts.setup_trace _ _ _ _ _ _ H)) as Hc.
  unfold CountFacts.counts in Hc. unfold _run. rewrite H. cbn [bind].
  repeat split; lia.
Qed.

(** A run whose monitoring phase ends in an exception other than the
    interrupt. An exception of class [Exception] (a timeout of a download
    included) is turned into the return code 1 after [cleanup] has been
    called as the last call; an exception outside [Exception] leaves [_run]
    unchanged and without [cleanup]. *)
Theorem monitoring_error_is_general_failure
        (lib : Library) (w : World) (self : Command) (parsed_args : Namespace)
        (t0 t1 tm : list event) (archs : list string) (id : string)
        (builds : list Build) (e : exn) :
  _run_setup lib w self parsed_args = (t0, Ok (archs, id)) ->
  _run_submit w self parsed_args archs id = (t1, Ok (inl builds)) ->
  _monitor_and_complete w self (Some id) builds = (tm, Raise e) ->
  e <> KeyboardInterrupt ->
  let r := _run lib w self parsed_args in
  (is_Exception e = true ->
   trace r = t0 ++ t1 ++ tm ++ [emit_progress "Cleaning up" false; call_cleanup]
   /\ (cleanup w = Ok tt -> outcome r = Ok 1%Z)
   /\ (forall e', cleanup w = Raise e' -> outcome r = Raise e'))
  /\ (is_Exception e = false -> r = (t0 ++ t1 ++ tm, Raise e)).
Proof.
  intros H0 H1 Hm Hne r. subst r.
  rewrite (RunFacts.run_after_submit _ _ _ _ _ _ _ _ _ H0 H1).
  unfold _run_monitor. rewrite Hm.
  destruct e; try contradiction;
    cbn [bind try_except emit call ret raise when trace outcome fst snd app
         Z.eqb Pos.eqb EX_TEMPFAIL negb is_Exception];
    (split; intros He; try discriminate He);
    rewrite ?app_nil_r; try reflexivity;
    destruct (cleanup w) as [[]|ec];
    cbn [bind try_except emit call ret raise when trace outcome fst snd app];
    rewrite ?app_nil_r; repeat split; try reflexivity;
    try (intros; discriminate); try (intros ? [= <-]; reflexivity).
Qed.

(** A run whose monitoring phase returns a code other than 75 calls
    [cleanup] as its last call and returns that code once [cleanup] has
    returned; an exception out of [cleanup] replaces the code. *)
Theorem completion_cleans_up
        (lib : Library) (w : World) (self : Command) (parsed_args : Namespace)
        (t0 t1 tm : list event) (archs : list string) (id : string)
        (builds : list Build) (code : Z) :
  _run_setup lib w self parsed_args = (t0, Ok (archs, id)) ->
  _run_submit w self parsed_args archs id = (t1, Ok (inl builds)) ->
  _monitor_and_complete w self (Some id) builds = (tm, Ok code) ->
  code <> 75%Z ->
  let r := _run lib w self parsed_args in
  trace r = t0 ++ t1 ++ tm ++ [emit_progress "Cleaning up" false; call_cleanup]
  /\ calls is_cleanup (trace r) = 1
  /\ (cleanup w = Ok tt -> outcome r = Ok code)
  /\ (forall e, cleanup w = Raise e -> outcome r = Raise e).
Proof.
  intros H0 H1 Hm Hne r. subst r.
  rewrite (RunFacts.run_after_submit _ _ _ _ _ _ _ _ _ H0 H1).
  assert (Hc0 : calls is_cleanup t0 = 0)
    by (apply RunFacts.setup_calls;
        [exact (RunFacts.setup_trace _ _ _ _ _ _ H0)|now intros []]).
  destruct (RunFacts.submit_running _ _ _ _ _ _ _ H1) as [Hc1 _].
  pose proof (TraceFacts.only_monitor_and_complete w self (Some id) builds) as Hom.
  unfold TraceFacts.only in Hom. rewrite Hm in Hom. cbn [trace fst] in Hom.
  assert (Hcm : calls is_cleanup tm = 0)
    by (apply (TraceFacts.only_calls TraceFacts.monitor_event);
        [exact Hom|now intros []]).
  unfold _run_monitor. rewrite Hm.
  cbn [bind try_except emit call ret raise when trace outcome fst snd app].
  replace (Z.eqb code EX_TEMPFAIL) with false
    by (symmetry; now apply Z.eqb_neq).
  destruct (cleanup w) as [[]|ec];
    cbn [bind try_except emit call ret raise when trace outcome fst snd app negb];
    rewrite ?app_nil_r, !TraceFacts.calls_app, Hc0, Hc1, Hcm;
    repeat split; try reflexivity;
    try (intros; discriminate); try (intros ? [= <-]; reflexivity).
Qed.

(** ** What the operator is told *)

Module ReportFacts.

Lemma report_failed_trace (states : MonitoringSnapshot) (rc : Z) :
  trace (report_failed states rc) = map failure_report (failed_archs states).
Proof.
  revert rc. unfold failed_archs.
  induction states as [|[arch st] states IH]; intros rc; [reflexivity|].
  cbn [report_failed filter snd].
  destruct (BuildState_eqb st FAILED); [|apply IH].
  specialize (IH 1%Z). unfold bind, emit.
  destruct (report_failed states 1) as [t r]. cbn [trace fst map] in *.
  now rewrite IH.
Qed.

Lemma join_sep_contains (sep x : string) (l : list string) :
  In x l -> Py.contains x (Py.join sep l).
Proof.
  unfold Py.join. induction l as [|y l IH]; [intros []|].
  intros [->|Hin].
  - destruct l as [|z l]; cbn [String.concat]; [apply PyFacts.contains_refl|].
    exists EmptyString, (sep +++ String.concat sep (z :: l)). reflexivity.
  - destruct l as [|z l]; [destruct Hin|].
    cbn [String.concat]. do 2 apply PyFacts.contains_append_l. now apply IH.
Qed.

End ReportFacts.

(** When the monitoring loop ends without raising, the architectures whose
    final state is FAILED are reported, one permanent message each and in
    the order of the snapshot, after the last tick and before the logs are
    fetched, whatever the fetches do afterwards. *)
Theorem failed_architectures_reported
        (w : World) (self : Command) (build_id : option string)
        (builds : list Build) (snaps : list MonitoringSnapshot) :
  monitor_builds w = (snaps, None) ->
  exists rest,
    trace (_monitor_and_complete w self build_id builds)
    = [emit_progress "Monitoring build" false; call_monitor_builds]
        ++ map RunFacts.tick snaps
        ++ map failure_report (failed_archs (last snaps []))
        ++ [emit_progress
              ("Fetching " +++ Py.str_of_nat (List.length builds) +++ " build logs...")
              false;
            call_fetch_logs]
        ++ rest.
Proof.
  intros Hm. unfold _monitor_and_complete, monitor_loop. rewrite Hm.
  cbn [fst snd]. rewrite RunFacts.monitor_ticks_eq.
  pose proof (ReportFacts.report_failed_trace (last snaps []) 0) as Ht.
  pose proof (RunFacts.report_failed_outcome (last snaps []) 0) as Ho.
  cbn [bind try_except emit call ret raise app].
  destruct (report_failed (last snaps []) 0) as [tf rf].
  cbn [trace outcome fst snd] in Ht, Ho. subst tf rf.
  destruct (fetch_logs w) as [logs|el];
    [destruct (fetch_artifacts w) as [artifacts|ea]|];
    try destruct logs; try destruct artifacts;
    destruct (existsb _ (last snaps []));
    cbn [bind try_except emit call ret raise trace outcome fst snd app
         Py.truthy_list negb];
    rewrite ?app_nil_r, <- ?app_assoc; cbn [app];
    eexists; reflexivity.
Qed.

(** Whenever the generator raises an exception that is not [TimeoutError],
    every snapshot it yielded before has been reported, nothing is fetched
    and the exception leaves [_monitor_and_complete] unchanged. *)
Theorem generator_error_skips_completion
        (w : World) (self : Command) (build_id : option string)
        (builds : list Build) (snaps : list MonitoringSnapshot) (e : exn) :
  monitor_builds w = (snaps, Some e) ->
  (forall message, e <> TimeoutError message) ->
  _monitor_and_complete w self build_id builds
  = ([emit_progress "Monitoring build" false; call_monitor_builds]
       ++ map RunFacts.tick snaps,
     Raise e).
Proof.
  intros Hm Hne. unfold _monitor_and_complete, monitor_loop. rewrite Hm.
  cbn [fst snd]. rewrite RunFacts.monitor_ticks_eq.
  destruct e; try (exfalso; now apply (Hne message));
    cbn [bind try_except emit call ret raise app]; now rewrite ?app_nil_r.
Qed.

Module LineFacts.

Lemma contains_trans (a b c : string) :
  Py.contains a b -> Py.contains b c -> Py.contains a c.
Proof.
  intros (p1 & q1 & ->) (p2 & q2 & ->).
  exists (p2 +++ p1), (q1 +++ q2). now rewrite !PyFacts.append_assoc.
Qed.

Lemma contains_nonempty (c : ascii) (t s : string) :
  Py.contains (String c t) s -> s <> EmptyString.
Proof.
  intros (pre & post & ->). destruct pre; discriminate.
Qed.

Lemma label_nonempty (k : bucket) :
  exists c t, bucket_label k = String c t.
Proof. destruct k; eexists _, _; reflexivity. Qed.

(** The part of the line that lists the bucket of an item of the snapshot. *)
Lemma part_listed (states : MonitoringSnapshot) (arch : string) (st : BuildState) :
  In (arch, st) states ->
  let k := bucket_of st in
  let names := Py.sorted (members k (classify states)) in
  In arch names
  /\ Py.contains (bucket_label k +++ Py.join (bucket_separator k) names)
                 (progress_line states).
Proof.
  intros Hin k names. subst names.
  assert (Hm : In arch (members k (classify states)))
    by (apply ClassifyFacts.classify_members; now exists st).
  split; [now apply PyFacts.sorted_In|].
  unfold progress_line. rewrite ClassifyFacts.progress_parts_eq.
  apply ReportFacts.join_sep_contains.
  apply (in_map (fun k => bucket_label k
                            +++ Py.join (bucket_separator k)
                                  (Py.sorted (members k (classify states))))).
  apply filter_In. split; [destruct k; cbn; tauto|].
  destruct (members k (classify states)); [destruct Hm|reflexivity].
Qed.

End LineFacts.

(** The progress line of a tick names every architecture of the snapshot, in
    a part that starts with the label of the bucket of its state; the line
    is empty only for an empty snapshot. *)
Theorem progress_line_names_every_architecture (states : MonitoringSnapshot) :
  (forall arch st,
      In (arch, st) states ->
      exists names,
        In arch names
        /\ Py.contains arch (Py.join (bucket_separator (bucket_of st)) names)
        /\ Py.contains (bucket_label (bucket_of st)
                          +++ Py.join (bucket_separator (bucket_of st)) names)
                       (progress_line states))
  /\ (progress_line states = EmptyString <-> states = []).
Proof.
  split.
  - intros arch st Hin.
    destruct (LineFacts.part_listed states arch st Hin) as [Hn Hc].
    eexists. split; [exact Hn|]. split; [|exact Hc].
    now apply ReportFacts.join_sep_contains.
  - split; [|now intros ->].
    destruct states as [|[arch st] states]; [reflexivity|]. intros E. exfalso.
    destruct (LineFacts.part_listed ((arch, st) :: states) arch st (or_introl eq_refl))
      as [_ Hc].
    destruct (LineFacts.label_nonempty (bucket_of st)) as (c & t & El).
    rewrite El in Hc. cbn [String.append] in Hc.
    exact (LineFacts.contains_nonempty _ _ _ Hc E).
Qed.

Module ResolveMore.

Lemma filter_build_fors_nonempty (lib : Library) (self : Command)
      (build_fors archs result : list string) :
  filter_build_fors lib self build_fors archs = Ok result ->
  (build_fors = [] /\ result = archs) \/ result <> [].
Proof.
  revert archs. induction build_fors as [|entry rest IH]; intros archs.
  - cbn. intros [= ->]. now left.
  - cbn [filter_build_fors].
    destruct (archs ++ build_fors_of _) as [|a l] eqn:E;
      cbn [Py.truthy_list negb]; [discriminate|].
    intros H. right. destruct (IH _ H) as [[_ ->]|Hne]; [discriminate|exact Hne].
Qed.

End ResolveMore.

(** Resolution returns an empty list of architectures in one case only: the
    project declares platforms or architectures, there is no override list,
    and the build plan is empty. *)
Theorem resolution_empty_only_for_empty_plan
        (lib : Library) (self : Command) (build_fors : option (list string)) :
  _get_archs lib self build_fors = Ok []
  <-> declares_architectures (cmd_project self) = true
      /\ Py.or_empty build_fors = []
      /\ build_plan self = [].
Proof.
  unfold _get_archs. split.
  - destruct (declares_architectures (cmd_project self)).
    + destruct (Py.or_empty build_fors) as [|b l] eqn:E; cbn [Py.truthy_list].
      * intros [= H]. unfold build_fors_of in H. apply map_eq_nil in H. auto.
      * intros H. apply ResolveMore.filter_build_fors_nonempty in H
          as [[H _]|H]; [discriminate|contradiction].
    + destruct (Py.or_empty build_fors) as [|b l]; cbn [Py.truthy_list];
        discriminate.
  - intros (-> & -> & ->). reflexivity.
Qed.

Module GroupFacts.

Definition total (m : list (string * list string)) : nat :=
  List.length (List.concat (map snd m)).

Lemma total_setdefault (m : list (string * list string)) (k v : string) :
  total (setdefault_append m k v) = S (total m).
Proof.
  unfold total. induction m as [|[k0 vs] m IH]; cbn [setdefault_append]; [reflexivity|].
  destruct (String.eqb k0 k); cbn [map snd List.concat]; rewrite !length_app.
  - cbn [List.length]. lia.
  - rewrite IH. lia.
Qed.

Lemma total_fold (plan : list BuildInfo) (m : list (string * list string)) :
  total (ValidateFacts.fold_build_map m plan) = total m + List.length plan.
Proof.
  revert m. induction plan as [|info plan IH]; intros m; cbn [List.length];
    [cbn [ValidateFacts.fold_build_map fold_left]; lia|].
  cbn [ValidateFacts.fold_build_map fold_left].
  fold (ValidateFacts.fold_build_map
          (setdefault_append m (build_on info) (build_for info)) plan).
  rewrite IH, total_setdefault. lia.
Qed.

End GroupFacts.

(** The build map of the validation groups the whole plan: its keys are the
    build-on values of the plan, each once; a key holds the build-for values
    of its entries in plan order; and the lists together have as many
    elements as the plan has entries. *)
Theorem build_map_groups_plan (plan : list BuildInfo) :
  let build_map := build_map_of plan in
  NoDup (map fst build_map)
  /\ (forall on, In on (map fst build_map) <-> In on (map build_on plan))
  /\ (forall on fors, In (on, fors) build_map
                      <-> fors = build_fors_on plan on /\ fors <> [])
  /\ List.length (List.concat (map snd build_map)) = List.length plan.
Proof.
  intros build_map. subst build_map.
  split; [|split; [|split]].
  - change (build_map_of plan) with (ValidateFacts.fold_build_map [] plan).
    apply ValidateFacts.NoDup_fold. constructor.
  - intros on. rewrite !in_map_iff. split.
    + intros ([on' fors] & <- & Hin). cbn [fst].
      apply ValidateFacts.build_map_entries in Hin as [-> Hne].
      unfold build_fors_on, build_fors_of in Hne.
      destruct (filter _ plan) as [|info l] eqn:E; [now contradiction Hne|].
      assert (Hi : In info (filter (fun info => String.eqb (build_on info) on') plan))
        by (rewrite E; now left).
      apply filter_In in Hi as [Hi Heq]. apply String.eqb_eq in Heq.
      now exists info.
    + intros (info & <- & Hin). exists (build_on info, build_fors_on plan (build_on info)).
      split; [reflexivity|]. apply ValidateFacts.build_map_entries.
      split; [reflexivity|]. unfold build_fors_on, build_fors_of.
      intros E. apply map_eq_nil in E.
      assert (Hi : In info (filter (fun i => String.eqb (build_on i) (build_on info)) plan))
        by (apply filter_In; split; [exact Hin|apply String.eqb_refl]).
      rewrite E in Hi. destruct Hi.
  - intros on fors. apply ValidateFacts.build_map_entries.
  - change (build_map_of plan) with (ValidateFacts.fold_build_map [] plan).
    exact (GroupFacts.total_fold plan []).
Qed.

(** ** What reaches the build farm *)

Module BindFacts.

Import TraceFacts.

Lemma in_bind {A B} (m : M A) (f : A -> M B) (ev : event) :
  In ev (trace (bind m f)) ->
  In ev (trace m) \/ exists a, outcome m = Ok a /\ In ev (trace (f a)).
Proof.
  unfold bind, trace, outcome. destruct m as [t [a|e]]; cbn [fst snd].
  - destruct (f a) as [t' r] eqn:E. cbn [fst]. intros [H|H]%in_app_or; [now left|].
    right. exists a. rewrite E. now split.
  - now left.
Qed.

Lemma outcome_bind_ok {A B} (m : M A) (f : A -> M B) (b : B) :
  outcome (bind m f) = Ok b ->
  exists a, outcome m = Ok a /\ outcome (f a) = Ok b.
Proof.
  unfold bind, outcome. destruct m as [t [a|e]]; cbn [snd]; [|discriminate].
  destruct (f a) as [t' r] eqn:E. cbn [snd]. intros ->.
  exists a. rewrite E. now split.
Qed.

Lemma only_In {A} (P : event -> bool) (m : M A) (ev : event) :
  only P m -> In ev (trace m) -> P ev = true.
Proof.
  unfold only. intros H Hin. rewrite forallb_forall in H. now apply H.
Qed.

(** Events of the validation: messages, the sudo pause, the prompt and the
    privacy query. *)
Definition validation_event (ev : event) : bool :=
  match ev with
  | emit_progress _ _ | time_sleep _ | call_confirm_with_user _ _
  | call_is_project_private => true
  | _ => false
  end.

Lemma only_validation (lib : Library) (w : World) (self : Command) (args : Namespace) :
  only validation_event (_validate lib w self args).
Proof.
  unfold _validate.
  apply only_bind; [repeat only_step|intros _].
  apply only_bind.
  - destruct (launchpad_accept_public_upload args); [only_step|].
    apply only_bind.
    + destruct (negb _); repeat only_step.
    + intros [|]; repeat only_step.
  - intros [|]; [only_step|].
    apply only_bind; [apply only_check_build_fors|intros _].
    apply only_validate_single.
Qed.

(** Events of the submission: messages, the one submitting call and the
    cleanup of its handlers. *)
Definition submit_event (ev : event) : bool :=
  match ev with
  | emit_progress _ _ | call_start_builds _ _ | call_resume_builds _
  | call_cleanup => true
  | _ => false
  end.

Lemma only_submit (w : World) (self : Command) (args : Namespace)
      (archs : list string) (id : string) :
  only submit_event (_run_submit w self args archs id).
Proof.
  unfold _run_submit. destruct (recover args); [repeat only_step|].
  apply only_bind; [repeat only_step|intros _].
  apply only_try_except; [repeat only_step|].
  intros []; repeat only_step.
Qed.

Lemma check_build_fors_ok (lib : Library) (l : list string) :
  outcome (check_build_fors lib l) = Ok tt ->
  forallb (supported_build_for lib) l = true.
Proof.
  induction l as [|e l IH]; [reflexivity|]. cbn [check_build_fors forallb].
  fold (supported_build_for lib e).
  destruct (supported_build_for lib e); cbn [negb andb]; [exact IH|discriminate].
Qed.

Lemma validate_ok (lib : Library) (w : World) (self : Command) (args : Namespace) :
  outcome (_validate lib w self args) = Ok tt ->
  forallb (supported_build_for lib) (Py.or_empty (remote_build_build_fors args)) = true.
Proof.
  unfold _validate. intros H.
  apply outcome_bind_ok in H as (_ & _ & H).
  apply outcome_bind_ok in H as (refused & _ & H).
  destruct refused; [discriminate|].
  apply outcome_bind_ok in H as ([] & H & _).
  now apply check_build_fors_ok.
Qed.

Lemma setup_ok (lib : Library) (w : World) (self : Command) (args : Namespace)
      (archs : list string) (id : string) :
  outcome (_run_setup lib w self args) = Ok (archs, id) ->
  outcome (_validate lib w self args) = Ok tt
  /\ _get_archs lib self (remote_build_build_fors args) = Ok archs.
Proof.
  unfold _run_setup. intros H.
  apply outcome_bind_ok in H as (_ & _ & H).
  apply outcome_bind_ok in H as (_ & _ & H).
  apply outcome_bind_ok in H as ([] & Hv & H).
  apply outcome_bind_ok in H as (archs' & Ha & H).
  apply outcome_bind_ok in H as (_ & _ & H).
  cbn in H. injection H as <- _. split; [exact Hv|exact Ha].
Qed.

(** An event of the run that no phase after the setup performs is an event
    of the setup. *)
Lemma in_run (lib : Library) (w : World) (self : Command) (args : Namespace)
      (ev : event) :
  In ev (trace (_run lib w self args)) ->
  In ev (trace (_run_setup lib w self args))
  \/ exists archs id,
      outcome (_run_setup lib w self args) = Ok (archs, id)
      /\ (In ev (trace (_run_submit w self args archs id))
          \/ RunFacts.closing_event ev = true).
Proof.
  unfold _run. intros [H|([archs id] & Hs & H)]%in_bind; [now left|].
  right. exists archs, id. split; [exact Hs|].
  apply in_bind in H as [H|([builds|code] & _ & H)]; [now left| |destruct H].
  right. exact (only_In _ _ _ (RunFacts.only_run_monitor w self id builds) H).
Qed.

End BindFacts.

(** What [start_builds] receives. Whenever a run calls [start_builds], the
    run is not a recovery, validation has passed, and the call holds the
    project directory and the very list that architecture resolution
    returned. For a project that declares no platforms or architectures
    that list is the host architecture alone or the override list, every
    entry of which is a supported architecture or [all]. *)
Theorem start_builds_receives_validated_architectures
        (lib : Library) (w : World) (self : Command) (parsed_args : Namespace)
        (dir : string) (archs : list string) :
  In (call_start_builds dir archs) (trace (_run lib w self parsed_args)) ->
  recover parsed_args = false
  /\ dir = project_dir self
  /\ outcome (_validate lib w self parsed_args) = Ok tt
  /\ _get_archs lib self (remote_build_build_fors parsed_args) = Ok archs
  /\ (declares_architectures (cmd_project self) = false ->
      (archs = [from_host lib] /\ Py.or_empty (remote_build_build_fors parsed_args) = [])
      \/ (archs = Py.or_empty (remote_build_build_fors parsed_args)
          /\ forallb (supported_build_for lib) archs = true)).
Proof.
  intros [H|(archs' & id & Hs & [H|H])]%BindFacts.in_run; [| |discriminate H].
  - pose proof (BindFacts.only_In _ _ _ (TraceFacts.only_run_setup lib w self parsed_args) H)
      as Hev.
    discriminate Hev.
  - apply BindFacts.setup_ok in Hs as [Hv Ha].
    assert (Hsub : recover parsed_args = false /\ dir = project_dir self /\ archs = archs').
    { revert H. unfold _run_submit. destruct (recover parsed_args).
      - destruct (resume_builds w); cbn; intros [H|[H|[]]]; discriminate H.
      - destruct (start_builds w) as [b|e]; [|destruct e; try destruct (cleanup w)];
          cbn; intros H;
          repeat (destruct H as [H|H]; try discriminate H);
          try contradiction; injection H as <- <-; auto. }
    destruct Hsub as (Hr & -> & ->).
    split; [exact Hr|]. split; [reflexivity|]. split; [exact Hv|]. split; [exact Ha|].
    intros Hd. apply BindFacts.validate_ok in Hv.
    revert Ha. unfold _get_archs. rewrite Hd.
    destruct (Py.or_empty (remote_build_build_fors parsed_args)) as [|b l];
      cbn [Py.truthy_list]; intros [= <-]; [left|right]; auto.
Qed.

(** [set_timeout] is called only with the value of [--launchpad-timeout],
    only when that value is not zero, and only once validation and
    architecture resolution have succeeded. *)
Theorem timeout_configured_after_validation
        (lib : Library) (w : World) (self : Command) (parsed_args : Namespace)
        (seconds : Z) :
  In (call_set_timeout seconds) (trace (_run lib w self parsed_args)) ->
  seconds = launchpad_timeout parsed_args
  /\ seconds <> 0%Z
  /\ outcome (_validate lib w self parsed_args) = Ok tt
  /\ exists archs, _get_archs lib self (remote_build_build_fors parsed_args) = Ok archs.
Proof.
  intros [H|(archs' & id & _ & [H|H])]%BindFacts.in_run; [| |discriminate H].
  - revert H. unfold _run_setup.
    intros [H|(_ & _ & H)]%BindFacts.in_bind.
    { destruct (Py.truthy_opt_str (project parsed_args)); cbn in H;
        [destruct H as [H|[]]; discriminate H|destruct H]. }
    apply BindFacts.in_bind in H as [H|(_ & _ & H)].
    { cbn in H. destruct H as [H|[]]; discriminate H. }
    apply BindFacts.in_bind in H as [H|([] & Hv & H)].
    { pose proof (BindFacts.only_In _ _ _
                    (BindFacts.only_validation lib w self parsed_args) H) as Hev.
      discriminate Hev. }
    apply BindFacts.in_bind in H as [H|(archs & Ha & H)]; [destruct H|].
    apply BindFacts.in_bind in H as [H|(_ & _ & H)]; [|destruct H].
    destruct (Z.eqb_spec (launchpad_timeout parsed_args) 0) as [E|E];
      cbn in H; [destruct H|].
    destruct H as [[= <-]|[]].
    split; [reflexivity|]. split; [exact E|]. split; [exact Hv|].
    exists archs. exact Ha.
  - pose proof (BindFacts.only_In _ _ _
                  (BindFacts.only_submit w self parsed_args archs' id) H) as Hev.
    discriminate Hev.
Qed.

(** ** The properties above at concrete runs *)

Lemma run_return_codes_witness :
  outcome (_run Example.lib Example.logs_time_out Example.one_target
                (Example.args false None)) = Ok 1%Z
  /\ calls is_cleanup
           (trace (_run Example.lib Example.logs_time_out Example.one_target
                        (Example.args false None))) = 1.
Proof.
  split; [reflexivity|].
  exact (proj2 (run_return_codes
                  Example.lib Example.logs_time_out Example.one_target
                  (Example.args false None) 1%Z eq_refl) eq_refl).
Defined.

Lemma setup_failure_stops_before_submission_witness :
  (exists message details,
      outcome (_run Example.lib Example.declining Example.one_target
                    Example.unacknowledged)
      = Raise (RemoteBuildError message details None doc_slug_remote_build
                                false EX_NOPERM))
  /\ calls is_start_builds
           (trace (_run Example.lib Example.declining Example.one_target
                        Example.unacknowledged)) = 0.
Proof.
  destruct (setup_failure_stops_before_submission
              Example.lib Example.declining Example.one_target
              Example.unacknowledged _ _ eq_refl) as (Hr & Hs & _).
  split.
  - eexists _, _. rewrite Hr. reflexivity.
  - rewrite Hr. exact Hs.
Defined.

Lemma monitoring_error_is_general_failure_witness :
  outcome (_run Example.lib Example.logs_time_out Example.one_target
                (Example.args false None)) = Ok 1%Z.
Proof.
  assert (Hne : TimeoutError "read timed out" <> KeyboardInterrupt) by discriminate.
  destruct (monitoring_error_is_general_failure
              Example.lib Example.logs_time_out Example.one_target
              (Example.args false None) _ _ _ _ _ _ _
              eq_refl eq_refl eq_refl Hne) as [H _].
  destruct (H eq_refl) as (_ & Ho & _). exact (Ho eq_refl).
Defined.

Lemma completion_cleans_up_witness :
  outcome (_run Example.lib Example.calm Example.one_target
                (Example.args false None)) = Ok 0%Z
  /\ calls is_cleanup
           (trace (_run Example.lib Example.calm Example.one_target
                        (Example.args false None))) = 1.
Proof.
  assert (Hne : 0%Z <> 75%Z) by discriminate.
  destruct (completion_cleans_up
              Example.lib Example.calm Example.one_target
              (Example.args false None) _ _ _ _ _ _ _
              eq_refl eq_refl eq_refl Hne) as (_ & Hc & Ho & _).
  split; [exact (Ho eq_refl)|exact Hc].
Defined.

Lemma failed_architectures_reported_witness :
  exists rest,
    trace (_monitor_and_complete
             (Example.with_monitor_builds ([Example.mixed_snapshot], None)
                                          Example.calm)
             Example.one_target (Some "abc123") ["s390x"; "amd64"; "arm64"])
    = [emit_progress "Monitoring build" false; call_monitor_builds]
        ++ [RunFacts.tick Example.mixed_snapshot]
        ++ [failure_report "s390x"]
        ++ [emit_progress "Fetching 3 build logs..." false; call_fetch_logs]
        ++ rest.
Proof.
  exact (failed_architectures_reported
           (Example.with_monitor_builds ([Example.mixed_snapshot], None) Example.calm)
           Example.one_target (Some "abc123") ["s390x"; "amd64"; "arm64"]
           [Example.mixed_snapshot] eq_refl).
Defined.

Lemma generator_error_skips_completion_witness :
  _monitor_and_complete (Example.interrupted true) Example.one_target
                        (Some "abc123") ["amd64"]
  = ([emit_progress "Monitoring build" false; call_monitor_builds;
      emit_progress "Building: amd64" false],
     Raise KeyboardInterrupt).
Proof.
  assert (Hne : forall message : string, KeyboardInterrupt <> TimeoutError message)
    by discriminate.
  exact (generator_error_skips_completion
           (Example.interrupted true) Example.one_target (Some "abc123") ["amd64"]
           [[("amd64", RUNNING)]] KeyboardInterrupt eq_refl Hne).
Defined.

Lemma start_builds_receives_validated_architectures_witness :
  In (call_start_builds "/home/user/demo" ["arm64"])
     (trace (_run Example.lib Example.calm Example.undeclared
                  (Example.args false (Some ["arm64"]))))
  /\ forallb (supported_build_for Example.lib) ["arm64"] = true.
Proof.
  assert (Hin : In (call_start_builds "/home/user/demo" ["arm64"])
                   (trace (_run Example.lib Example.calm Example.undeclared
                                (Example.args false (Some ["arm64"])))))
    by (vm_compute; tauto).
  split; [exact Hin|].
  destruct (start_builds_receives_validated_architectures
              Example.lib Example.calm Example.undeclared
              (Example.args false (Some ["arm64"])) _ _ Hin)
    as (_ & _ & _ & _ & H).
  destruct (H eq_refl) as [[H1 _]|[_ H2]]; [discriminate H1|exact H2].
Defined.

Lemma timeout_configured_after_validation_witness :
  In (call_set_timeout 30)
     (trace (_run Example.lib Example.calm Example.one_target Example.timed))
  /\ outcome (_validate Example.lib Example.calm Example.one_target Example.timed)
     = Ok tt.
Proof.
  assert (Hin : In (call_set_timeout 30)
                   (trace (_run Example.lib Example.calm Example.one_target
                                Example.timed)))
    by (vm_compute; tauto).
  split; [exact Hin|].
  exact (proj1 (proj2 (proj2 (timeout_configured_after_validation
                                Example.lib Example.calm Example.one_target
                                Example.timed 30%Z Hin)))).
Defined.

Lemma build_for_option_parsing_witness :
  Parser.build_for_type " amd64 , arm64 " = ["amd64"; "arm64"]
  /\ Py.join "," (Parser.build_for_type "amd64,arm64") = "amd64,arm64".
Proof.
  split; [reflexivity|].
  apply (proj1 (proj2 (proj2 (proj2 (build_for_option_parsing "amd64,arm64"))))).
  intros c H. cbn in H.
  repeat (destruct H as [<-|H]; [reflexivity|]). destruct H.
Defined.

Lemma unsupported_build_for_rejected_witness :
  exists resolution,
    outcome (check_build_fors Example.lib ["amd64"; "i386"; "arm64"])
    = Raise (RemoteBuildError "Unsupported build-for architecture 'i386'."
                              None resolution doc_slug_remote_build true 78%Z).
Proof.
  eexists.
  exact (proj2 (proj2 (unsupported_build_for_rejected
                         Example.lib ["amd64"; "i386"; "arm64"]))
           ["amd64"] "i386" ["arm64"] eq_refl eq_refl eq_refl).
Defined.

Lemma public_upload_acknowledgement_witness :
  calls is_confirm_with_user
        (trace (_validate Example.lib Example.declining Example.one_target
                          Example.unacknowledged)) = 1
  /\ exists message details,
      outcome (_validate Example.lib Example.declining Example.one_target
                         Example.unacknowledged)
      = Raise (RemoteBuildError message details None doc_slug_remote_build
                                false 77%Z).
Proof.
  destruct (proj2 (proj2 (proj2 (public_upload_acknowledgement
                                   Example.lib Example.declining Example.one_target
                                   Example.unacknowledged)))
              eq_refl (or_introl eq_refl)) as (Hc & _ & Hr).
  split; [exact Hc|]. eexists _, _. exact (Hr eq_refl).
Defined.

Lemma progress_line_names_every_architecture_witness :
  exists names,
    In "s390x" names
    /\ Py.contains "s390x" (Py.join "," names)
    /\ Py.contains ("Stopped: " +++ Py.join "," names)
                   (progress_line Example.mixed_snapshot).
Proof.
  exact (proj1 (progress_line_names_every_architecture Example.mixed_snapshot)
           "s390x" FAILED (or_introl eq_refl)).
Defined.

(** ** The closing message *)

(** When the generator ends and both downloads return, the last event of
    [_monitor_and_complete] is the message that lists the downloads: the
    names of the logs that have a path (an architecture without a log is
    skipped) and the names of the artifacts, each list in sorted order. *)
Theorem completion_message_lists_downloads
        (w : World) (self : Command) (build_id : option string)
        (builds : list Build) (snaps : list MonitoringSnapshot)
        (logs : list (string * option Path)) (artifacts : list Path) :
  monitor_builds w = (snaps, None) ->
  fetch_logs w = Ok logs ->
  fetch_artifacts w = Ok artifacts ->
  let log_names := Py.sorted (log_names_of logs) in
  let artifact_names := Py.sorted (map path_name artifacts) in
  (exists before,
      trace (_monitor_and_complete w self build_id builds)
      = before ++ [emit_message
                     ("Build completed." +++ Py.nl
                        +++ "Log files: " +++ Py.join ", " log_names +++ Py.nl
                        +++ "Artifacts: " +++ Py.join ", " artifact_names)])
  /\ (forall file, In file log_names
                   <-> exists arch path, In (arch, Some path) logs
                                         /\ path_name path = file)
  /\ (forall file, In file artifact_names
                   <-> exists path, In path artifacts /\ path_name path = file)
  /\ Sorted PyFacts.str_le log_names
  /\ Sorted PyFacts.str_le artifact_names
  /\ List.length artifact_names = List.length artifacts.
Proof.
  intros Hm Hl Ha log_names artifact_names. subst log_names artifact_names.
  split; [|split; [|split; [|split; [|split]]]].
  - set (message := "Build completed." +++ _).
    assert (H : exists rest,
               List.rev (trace (_monitor_and_complete w self build_id builds))
               = emit_message message :: rest).
    { subst message. unfold _monitor_and_complete, monitor_loop.
      rewrite Hm, Hl, Ha. cbn [fst snd]. rewrite RunFacts.monitor_ticks_eq.
      pose proof (RunFacts.report_failed_outcome (last snaps []) 0) as Ho.
      cbn [bind try_except emit call ret raise app].
      destruct (report_failed (last snaps []) 0) as [tf rf].
      cbn [outcome snd] in Ho. subst rf.
      set (message := "Build completed." +++ _). clearbody message.
      destruct logs, artifacts;
        cbn [bind try_except emit call ret raise trace outcome fst snd app
             Py.truthy_list negb];
        cbn [List.rev]; rewrite !List.rev_app_distr; cbn [List.rev app];
        eexists; reflexivity. }
    destruct H as [rest H]. exists (List.rev rest).
    rewrite <- (List.rev_involutive (trace _)), H. reflexivity.
  - intros file. rewrite PyFacts.sorted_In. unfold log_names_of.
    rewrite in_flat_map. split.
    + intros ([arch [path|]] & Hin & Hf); cbn [snd] in Hf; [|destruct Hf].
      destruct Hf as [<-|[]]. now exists arch, path.
    + intros (arch & path & Hin & <-). exists (arch, Some path).
      split; [exact Hin|now left].
  - intros file. rewrite PyFacts.sorted_In, in_map_iff. split.
    + intros (path & <- & Hin). now exists path.
    + intros (path & Hin & <-). now exists path.
  - apply PyFacts.sorted_Sorted.
  - apply PyFacts.sorted_Sorted.
  - rewrite <- (Permutation_length (PyFacts.sorted_perm _)). apply length_map.
Qed.

Lemma completion_message_lists_downloads_witness :
  exists before,
    trace (_monitor_and_complete Example.calm Example.one_target
                                 (Some "abc123") ["amd64"])
    = before ++ [emit_message
                   ("Build completed." +++ Py.nl
                      +++ "Log files: demo_amd64.txt" +++ Py.nl
                      +++ "Artifacts: demo_1.0_amd64.snap")].
Proof.
  exact (proj1 (completion_message_lists_downloads
                  Example.calm Example.one_target (Some "abc123") ["amd64"]
                  _ _ _ eq_refl eq_refl eq_refl)).
Defined.
